(** * The Bloom's-taxonomy question classifier of [app/routes_vialli.py]

    A shallow embedding of [analyze_question_blooms_level] and of its
    helpers ([_analyze_document_context], [_analyze_question_complexity],
    [_handle_special_cases], [_determine_level_with_confidence],
    [_validate_classification], [_generate_detailed_explanation],
    [_get_classification_reasoning]), followed by the properties the
    specification states about them; then the code around the
    classifier ([extract_text_from_file] and the route
    [check_blooms_level] of the same file, [utils/validation.py] and the
    upload functions of [utils/file_utils.py]) with further properties
    of the whole.

    Modelling conventions.
    - A Python [str] is a [string]; a character is a code point below 256
      and the character classes ([str.lower], [str.isspace], the regex
      classes [\w] and [\s]) are the ones Python gives to these code points.
    - A text argument of the entry point is [None] or a [str] ([pyval]).
    - A Python [float] is an exact rational ([Q]) and [==] on floats is
      [Qeq]: the decimal constants of the source and the operations on
      them are taken exactly, where the interpreter rounds each of them
      to a binary64; the two readings can part only where a comparison
      falls exactly on its bound, as [total_complexity < threshold - 0.2]
      may.  [round(x, 2)] and the [:.1f] format round the exact value,
      half to even.
    - A [dict] is an association list in insertion order.
    - An exception is the [Raise] case of the error monad [exc]; the
      [try]/[except Exception] of the entry point is a [match] on it. *)

From Stdlib Require Import ZArith QArith Qround Qminmax Lqa Lia List String Ascii Bool Arith.
From Stdlib Require Import DecimalString.
Import ListNotations.

Local Open Scope string_scope.
Local Open Scope Q_scope.

(* ===================================================================== *)
(** * Python strings *)
(* ===================================================================== *)

Module PyStr.

Definition code (c : ascii) : N := N_of_ascii c.

Definition in_range (lo hi : N) (c : ascii) : bool :=
  (N.leb lo (code c) && N.leb (code c) hi)%bool.

(** [A-Z], [a-z] and [0-9] as the regex character ranges. *)
Definition is_upper_az (c : ascii) : bool := in_range 65 90 c.
Definition is_lower_az (c : ascii) : bool := in_range 97 122 c.
Definition is_digit (c : ascii) : bool := in_range 48 57 c.

(** [str.isspace] and the regex class [\s]: tab to carriage return,
    the separators 28 to 31, space, NEL and the no-break space. *)
Definition is_space (c : ascii) : bool :=
  (in_range 9 13 c || in_range 28 32 c
   || N.eqb (code c) 133 || N.eqb (code c) 160)%bool.

(** The regex class [\w]: alphanumeric code points and the underscore. *)
Definition is_word (c : ascii) : bool :=
  (is_upper_az c || is_lower_az c || is_digit c || N.eqb (code c) 95
   || N.eqb (code c) 170 || in_range 178 179 c || N.eqb (code c) 181
   || in_range 185 186 c || in_range 188 190 c
   || in_range 192 214 c || in_range 216 246 c || in_range 248 255 c)%bool.

(** [str.lower] on one character. *)
Definition lower_char (c : ascii) : ascii :=
  if (is_upper_az c || in_range 192 214 c || in_range 216 222 c)%bool
  then ascii_of_N (code c + 32) else c.

Fixpoint lower (s : string) : string :=
  match s with
  | EmptyString => EmptyString
  | String c s' => String (lower_char c) (lower s')
  end.

(** [s.startswith(p)] *)
Fixpoint startswith (p s : string) : bool :=
  match p, s with
  | EmptyString, _ => true
  | String a p', String b s' => (Ascii.eqb a b && startswith p' s')%bool
  | String _ _, EmptyString => false
  end.

(** [p in s] for strings. *)
Fixpoint contains (p s : string) : bool :=
  (startswith p s ||
   match s with
   | EmptyString => false
   | String _ s' => contains p s'
   end)%bool.

(** [c in s] for a one-character needle. *)
Fixpoint has_char (c : ascii) (s : string) : bool :=
  match s with
  | EmptyString => false
  | String b s' => (Ascii.eqb c b || has_char c s')%bool
  end.

Fixpoint lstrip (s : string) : string :=
  match s with
  | String c s' => if is_space c then lstrip s' else s
  | EmptyString => EmptyString
  end.

Fixpoint all_space (s : string) : bool :=
  match s with
  | EmptyString => true
  | String c s' => (is_space c && all_space s')%bool
  end.

Fixpoint rstrip (s : string) : string :=
  match s with
  | EmptyString => EmptyString
  | String c s' => if all_space s then EmptyString else String c (rstrip s')
  end.

(** [s.strip()] *)
Definition strip (s : string) : string := rstrip (lstrip s).

(** [s.split()]: the maximal runs of non-space characters.  [cur] is the
    word being read, reversed. *)
Fixpoint rev_string (acc s : string) : string :=
  match s with
  | EmptyString => acc
  | String c s' => rev_string (String c acc) s'
  end.

Definition flush (cur : string) : list string :=
  match cur with
  | EmptyString => []
  | _ => [rev_string EmptyString cur]
  end.

Fixpoint split_go (cur : string) (s : string) : list string :=
  match s with
  | EmptyString => flush cur
  | String c s' =>
      if is_space c then flush cur ++ split_go EmptyString s'
      else split_go (String c cur) s'
  end.

Definition split (s : string) : list string := split_go EmptyString s.

(** [x in l] for a list of strings. *)
Definition mem (x : string) (l : list string) : bool :=
  existsb (String.eqb x) l.

(** [any(w in s for w in ws)] *)
Definition any_in (ws : list string) (s : string) : bool :=
  existsb (fun w => contains w s) ws.

End PyStr.

(* ===================================================================== *)
(** * The fragment of Python's [re] module the classifier uses *)
(* ===================================================================== *)

Module Regex.
Import PyStr.

(** Patterns are kept as the strings of the source and compiled by
    [compile].  The syntax the source uses: literal characters, [.],
    a postfix [*], groups [( | )] and a leading [^]. *)
Inductive re : Type :=
| Void
| Eps
| Chr (c : ascii)
| Dot
| Cat (r1 r2 : re)
| Alt (r1 r2 : re)
| Star (r : re).

Definition newline : ascii := ascii_of_N 10.

(** The strings of a regular expression; [.] is any character but a
    newline, as without [re.DOTALL]. *)
Inductive matches : re -> string -> Prop :=
| MEps : matches Eps EmptyString
| MChr c : matches (Chr c) (String c EmptyString)
| MDot c : c <> newline -> matches Dot (String c EmptyString)
| MCat r1 r2 s1 s2 :
    matches r1 s1 -> matches r2 s2 -> matches (Cat r1 r2) (s1 ++ s2)
| MAltL r1 r2 s : matches r1 s -> matches (Alt r1 r2) s
| MAltR r1 r2 s : matches r2 s -> matches (Alt r1 r2) s
| MStar0 r : matches (Star r) EmptyString
| MStarS r s1 s2 :
    matches r s1 -> matches (Star r) s2 -> matches (Star r) (s1 ++ s2).

Fixpoint nullable (r : re) : bool :=
  match r with
  | Void | Chr _ | Dot => false
  | Eps | Star _ => true
  | Cat r1 r2 => (nullable r1 && nullable r2)%bool
  | Alt r1 r2 => (nullable r1 || nullable r2)%bool
  end.

(** Constructors that drop dead branches, so that derivatives stay small. *)
Definition cat (r1 r2 : re) : re :=
  match r1, r2 with
  | Void, _ => Void
  | _, Void => Void
  | Eps, _ => r2
  | _, Eps => r1
  | _, _ => Cat r1 r2
  end.

Definition alt (r1 r2 : re) : re :=
  match r1, r2 with
  | Void, _ => r2
  | _, Void => r1
  | _, _ => Alt r1 r2
  end.

Fixpoint deriv (a : ascii) (r : re) : re :=
  match r with
  | Void | Eps => Void
  | Chr c => if Ascii.eqb a c then Eps else Void
  | Dot => if Ascii.eqb a newline then Void else Eps
  | Cat r1 r2 =>
      alt (cat (deriv a r1) r2) (if nullable r1 then deriv a r2 else Void)
  | Alt r1 r2 => alt (deriv a r1) (deriv a r2)
  | Star r1 => cat (deriv a r1) (Star r1)
  end.

(** [re.match]: some prefix of [s] is matched by [r]. *)
Fixpoint match_here (r : re) (s : string) : bool :=
  (nullable r ||
   match s with
   | EmptyString => false
   | String a s' => match_here (deriv a r) s'
   end)%bool.

(** [re.fullmatch]: the whole of [s] is matched by [r]. *)
Fixpoint fullmatch (r : re) (s : string) : bool :=
  match s with
  | EmptyString => nullable r
  | String a s' => fullmatch (deriv a r) s'
  end.

(** [re.search] without anchor: a match starts at some position. *)
Fixpoint search_from (r : re) (s : string) : bool :=
  (match_here r s ||
   match s with
   | EmptyString => false
   | String _ s' => search_from r s'
   end)%bool.

(** ** Reading a pattern *)

(** A group being read: the alternatives already closed by a [|], and
    the atoms of the alternative being read, last atom first. *)
Record frame : Type := { alts : re; atoms : list re }.

Definition empty_frame : frame := {| alts := Void; atoms := [] |}.

Definition seq_of (rev_atoms : list re) : re :=
  fold_left (fun acc a => cat a acc) rev_atoms Eps.

Definition close (f : frame) : re := alt (alts f) (seq_of (atoms f)).

Definition push (a : re) (f : frame) : frame :=
  {| alts := alts f; atoms := a :: atoms f |}.

Definition is_meta (c : ascii) : bool :=
  has_char c "^$+?[]{}\".

Fixpoint parse (p : string) (cur : frame) (stack : list frame) : option re :=
  match p with
  | EmptyString =>
      match stack with
      | [] => Some (close cur)
      | _ :: _ => None
      end
  | String c p' =>
      if Ascii.eqb c "(" then parse p' empty_frame (cur :: stack)
      else if Ascii.eqb c ")" then
        match stack with
        | [] => None
        | f :: st => parse p' (push (close cur) f) st
        end
      else if Ascii.eqb c "|" then
        parse p' {| alts := close cur; atoms := [] |} stack
      else if Ascii.eqb c "*" then
        match atoms cur with
        | [] => None
        | a :: rest => parse p' {| alts := alts cur; atoms := Star a :: rest |} stack
        end
      else if Ascii.eqb c "." then parse p' (push Dot cur) stack
      else if is_meta c then None
      else parse p' (push (Chr c) cur) stack
  end.

(** A compiled pattern: whether it is anchored by a leading [^], and
    its body. *)
Definition compile (p : string) : option (bool * re) :=
  match p with
  | String "^" p' => option_map (pair true) (parse p' empty_frame [])
  | _ => option_map (pair false) (parse p empty_frame [])
  end.

Definition run (cp : bool * re) (s : string) : bool :=
  if fst cp then match_here (snd cp) s else search_from (snd cp) s.

(** [bool(re.search(p, s))].  A pattern outside the fragment counts as
    no match; [BloomsFacts.patterns_compile] shows that the source has none. *)
Definition search (p s : string) : bool :=
  match compile p with
  | Some cp => run cp s
  | None => false
  end.

(** ** Word boundaries *)

Definition word_opt (o : option ascii) : bool :=
  match o with
  | Some c => is_word c
  | None => false
  end.

Definition head (s : string) : option ascii :=
  match s with
  | EmptyString => None
  | String c _ => Some c
  end.

(** [\b] between the character [prev] and the character [next]; the two
    ends of the string count as non-word characters. *)
Definition boundary (prev next : option ascii) : bool :=
  xorb (word_opt prev) (word_opt next).

(** The literal [kw] followed by [\b], read at the start of [s]. *)
Fixpoint lit_then_b (prev : option ascii) (kw s : string) : bool :=
  match kw with
  | EmptyString => boundary prev (head s)
  | String a kw' =>
      match s with
      | EmptyString => false
      | String b s' => (Ascii.eqb a b && lit_then_b (Some b) kw' s')%bool
      end
  end.

Fixpoint search_word_go (prev : option ascii) (kw s : string) : bool :=
  (boundary prev (head s) && lit_then_b prev kw s ||
   match s with
   | EmptyString => false
   | String c s' => search_word_go (Some c) kw s'
   end)%bool.

(** [bool(re.search(r'\b' + re.escape(kw) + r'\b', s))] *)
Definition search_word (kw s : string) : bool := search_word_go None kw s.

(** [bool(re.search(r'\b(w1|w2|...)\b', s))] *)
Definition search_words (ws : list string) (s : string) : bool :=
  existsb (fun w => search_word w s) ws.

(** ** Substitutions *)

(** [re.sub(r'[^\w\s]', ' ', s)] *)
Fixpoint sub_punct (s : string) : string :=
  match s with
  | EmptyString => EmptyString
  | String c s' =>
      String (if (is_word c || is_space c)%bool then c else " "%char)
             (sub_punct s')
  end.

(** [re.sub(r'\s+', ' ', s)]; [in_run] tells that the run of spaces
    being read has already been replaced. *)
Fixpoint sub_spaces (in_run : bool) (s : string) : string :=
  match s with
  | EmptyString => EmptyString
  | String c s' =>
      if is_space c
      then if in_run then sub_spaces true s'
           else String " "%char (sub_spaces true s')
      else String c (sub_spaces false s')
  end.

(** ** [re.findall(r'\b([A-Z][a-z]+|[0-9]+)\b', s)] *)

Fixpoint take_while (p : ascii -> bool) (s : string) : string * string :=
  match s with
  | EmptyString => (EmptyString, EmptyString)
  | String c s' =>
      if p c then let (run, rest) := take_while p s' in (String c run, rest)
      else (EmptyString, s)
  end.

(** The group followed by [\b], tried at the start of [s].  The greedy
    [+] can only stop at the end of the run: a shorter run ends between
    two word characters, where [\b] fails. *)
Definition term_at (s : string) : option string :=
  match s with
  | EmptyString => None
  | String c s' =>
      let capitalized :=
        if is_upper_az c then
          let (run, rest) := take_while is_lower_az s' in
          match run with
          | EmptyString => None
          | String _ _ =>
              if word_opt (head rest) then None else Some (String c run)
          end
        else None in
      match capitalized with
      | Some t => Some t
      | None =>
          if is_digit c then
            let (run, rest) := take_while is_digit s in
            if word_opt (head rest) then None else Some run
          else None
      end
  end.

(** A match cannot start inside an earlier match (there is no [\b]
    between two word characters), so every position is tried. *)
Fixpoint findall_go (prev : option ascii) (s : string) : list string :=
  match s with
  | EmptyString => []
  | String c s' =>
      (if boundary prev (Some c)
       then match term_at s with Some t => [t] | None => [] end
       else []) ++ findall_go (Some c) s'
  end.

Definition findall_terms (s : string) : list string := findall_go None s.

End Regex.


(* ===================================================================== *)
(** * Python numbers, exceptions and arguments *)
(* ===================================================================== *)

Module PyNum.

Definition Qlt_bool (a b : Q) : bool := negb (Qle_bool b a).

(** [min(a, b)]: [a], unless [b < a]. *)
Definition py_min (a b : Q) : Q := if Qlt_bool b a then b else a.

(** [max(a, b)]: [a], unless [b > a]. *)
Definition py_max (a b : Q) : Q := if Qlt_bool a b then b else a.

(** [sum(l)] *)
Definition py_sum (l : list Q) : Q := fold_left Qplus l 0.

(** [len(l)] as a number. *)
Definition of_nat (n : nat) : Q := inject_Z (Z.of_nat n).

(** The integer nearest to [x], a tie going to the even one. *)
Definition round_half_even (x : Q) : Z :=
  let f := Qfloor x in
  match Qcompare (x - inject_Z f) (1 # 2) with
  | Lt => f
  | Gt => (f + 1)%Z
  | Eq => if Z.even f then f else (f + 1)%Z
  end.

(** [round(x, 2)] *)
Definition round2 (x : Q) : Q := inject_Z (round_half_even (x * 100)) / 100.

(** [str(n)] for a natural number. *)
Definition str_N (n : N) : string := NilZero.string_of_uint (N.to_uint n).

(** [f"{x:.1f}"] *)
Definition format_1f (x : Q) : string :=
  let n := Z.to_N (Z.abs (round_half_even (x * 10))) in
  ((if Qlt_bool x 0 then "-" else "")
     ++ str_N (n / 10) ++ "." ++ str_N (n mod 10))%string.

End PyNum.

(** Exceptions: a computation returns a value or raises, [msg] being
    [str(e)] of the exception. *)
Inductive exc (A : Type) : Type :=
| Ok (a : A)
| Raise (msg : string).
Arguments Ok {A} a.
Arguments Raise {A} msg.

Definition bind {A B : Type} (c : exc A) (k : A -> exc B) : exc B :=
  match c with
  | Ok a => k a
  | Raise msg => Raise msg
  end.

Notation "x <- c ;; k" := (bind c (fun x => k))
  (at level 61, c at next level, right associativity).

(** The values the callers pass for a text argument: [None] or a [str]. *)
Inductive pyval : Type :=
| PyNone
| PyStr (s : string).

(** [bool(v)]: [None] and the empty string are false. *)
Definition truthy (v : pyval) : bool :=
  match v with
  | PyStr (String _ _) => true
  | _ => false
  end.

(** [len(v)] for a value known to be true. *)
Definition py_len (v : pyval) : nat :=
  match v with
  | PyStr s => String.length s
  | PyNone => 0
  end.

(* ===================================================================== *)
(** * The level registry *)
(* ===================================================================== *)

Inductive CognitiveLevel : Type :=
| Remembering
| Understanding
| Applying
| Analyzing
| Evaluating
| Creating.

Module Level.

Definition name (l : CognitiveLevel) : string :=
  match l with
  | Remembering => "Remembering"
  | Understanding => "Understanding"
  | Applying => "Applying"
  | Analyzing => "Analyzing"
  | Evaluating => "Evaluating"
  | Creating => "Creating"
  end.

Definition eqb (a b : CognitiveLevel) : bool :=
  match a, b with
  | Remembering, Remembering | Understanding, Understanding
  | Applying, Applying | Analyzing, Analyzing
  | Evaluating, Evaluating | Creating, Creating => true
  | _, _ => false
  end.

(** [l in ls] *)
Definition mem (l : CognitiveLevel) (ls : list CognitiveLevel) : bool :=
  existsb (eqb l) ls.

Definition all : list CognitiveLevel :=
  [Remembering; Understanding; Applying; Analyzing; Evaluating; Creating].

End Level.

Record LevelProfile : Type := {
  keywords : list string;
  question_patterns : list string;
  verbs : list string;
  weight : Q;
  complexity_threshold : Q
}.

Module Registry.

(** The dict [blooms_processes], in its insertion order. *)
Definition blooms_processes : list (CognitiveLevel * LevelProfile) :=
  [
  (Remembering,
   {| keywords :=
        ["recall"; "list"; "define"; "identify"; "name"; "state";
         "recognize"; "select"; "match"; "memorize"; "what is the";
         "what are the"; "who was"; "when did"; "where is"];
      question_patterns :=
        ["^what is the (name|value|date|capital|definition)";
         "^what are the (three|four|key) (steps|parts|types)";
         "^who (is|was) (the|a)";
         "^when did (the|.*) (happen|occur|start)";
         "^where is (the|.*) (located|found)"; "^name (all|the|three)";
         "^list (the|all|three)"; "^define";
         "^what was the (first|last|result)"];
      verbs :=
        ["is"; "are"; "was"; "were"; "did"; "does"; "has"; "have"];
      weight := 1.0;
      complexity_threshold := 0.2 |});
  (Understanding,
   {| keywords :=
        ["explain"; "summarize"; "interpret"; "paraphrase"; "classify";
         "describe"; "discuss"; "restate"; "translate"; "outline";
         "main idea"; "in your own words"; "difference between"];
      question_patterns :=
        ["explain (why|how)"; "summarize"; "what does (.*) mean";
         "in your own words"; "how would you describe";
         "what is the main idea"; "what is the purpose of";
         "give an example of"; "what can you infer from";
         "how does (.*) work"; "how (.*) works"; "why is (.*) important";
         "how would you explain (.*)"; "what happens when";
         "what is the difference between";
         "what are the differences between"; "distinguish between";
         "how is (.*) different from"];
      verbs :=
        ["explain"; "describe"; "summarize"; "interpret"; "discuss";
         "paraphrase"; "distinguish"; "breakdown"];
      weight := 1.2;
      complexity_threshold := 0.4 |});
  (Applying,
   {| keywords :=
        ["use"; "apply"; "implement"; "solve"; "demonstrate"; "show how";
         "employ"; "illustrate"; "execute"; "calculate"; "model"];
      question_patterns :=
        ["how would you use (.*) to"; "what would happen if";
         "how would you solve (this|the following) problem";
         "demonstrate how (to|you)";
         "apply (the|this) (principle|rule|law) (to|for)"; "solve for";
         "use (.*) to (show|demonstrate|solve)"; "calculate the";
         "perform (the|a) (calculation|procedure|experiment)";
         "carry out (the|this) (task|process)"];
      verbs :=
        ["use"; "apply"; "solve"; "demonstrate"; "implement"; "calculate"];
      weight := 1.3;
      complexity_threshold := 0.5 |});
  (Analyzing,
   {| keywords :=
        ["analyze"; "compare"; "contrast"; "differentiate"; "examine";
         "investigate"; "categorize"; "organize"; "deduce"; "distinguish";
         "relationship"; "cause"; "effect"; "similarities between"];
      question_patterns :=
        ["what are the similarities between"; "compare and contrast";
         "analyze (how|why)"; "why do you think"; "what evidence supports";
         "how is (.*) related to"; "what factors contribute to";
         "break down"; "examine the causes of";
         "what is the relationship between"; "why is (.*) different from";
         "how would you categorize (.*)"; "what components make up (.*)";
         "what is the underlying cause of"; "how does (.*) influence (.*)";
         "what assumptions underlie (.*)"];
      verbs :=
        ["analyze"; "compare"; "contrast"; "examine"; "investigate";
         "categorize"; "differentiate"];
      weight := 1.4;
      complexity_threshold := 0.7 |});
  (Evaluating,
   {| keywords :=
        ["evaluate"; "judge"; "critique"; "justify"; "defend"; "argue";
         "assess"; "rate"; "recommend"; "appraise"; "prioritize";
         "opinion"; "do you agree"];
      question_patterns :=
        ["do you agree (with|that)"; "what is your opinion (on|about)";
         "how effective (is|was)"; "justify your (answer|position)";
         "defend your (position|argument)"; "critique (the|this)";
         "evaluate (the|this) (decision|method)";
         "which is (better|more effective)"; "what would you recommend";
         "assess the (value|validity)"; "rate the importance of";
         "which option (is|would be) best"; "how would you improve (.*)";
         "do the benefits outweigh the risks"];
      verbs :=
        ["evaluate"; "judge"; "critique"; "justify"; "defend"; "assess";
         "recommend"];
      weight := 1.5;
      complexity_threshold := 0.8 |});
  (Creating,
   {| keywords :=
        ["create"; "design"; "develop"; "generate"; "produce";
         "hypothesize"; "plan"; "construct"; "invent"; "compose";
         "formulate"; "propose"; "what if"];
      question_patterns :=
        ["how would you design"; "what would you create";
         "can you propose (an|a)"; "develop a (plan|model|solution)";
         "create a (solution|product|story)";
         "hypothesize what would happen if"; "design (a|an)";
         "invent (a|an)"; "compose (a|an)"; "formulate a (theory|plan)";
         "what if you could"; "how would you modify (.*) to";
         "what new (method|model|idea) could";
         "develop an alternative to (.*)"];
      verbs :=
        ["create"; "design"; "develop"; "propose"; "invent"; "hypothesize";
         "construct"];
      weight := 1.6;
      complexity_threshold := 0.9 |})
  ].

End Registry.

(* ===================================================================== *)
(** * The score board: the dict [level_scores] *)
(* ===================================================================== *)

Module Board.

Definition t : Type := list (CognitiveLevel * Q).

(** [d[k]]; a missing key raises [KeyError], whose text is the quoted key. *)
Fixpoint get (k : CognitiveLevel) (d : t) : exc Q :=
  match d with
  | [] => Raise ("'" ++ Level.name k ++ "'")
  | (k', v) :: d' => if Level.eqb k k' then Ok v else get k d'
  end.

(** [d[k] = v]: an existing key keeps its place, a new one goes last. *)
Fixpoint set (k : CognitiveLevel) (v : Q) (d : t) : t :=
  match d with
  | [] => [(k, v)]
  | (k', v') :: d' =>
      if Level.eqb k k' then (k, v) :: d' else (k', v') :: set k v d'
  end.

(** [d[k] += x] *)
Definition add (k : CognitiveLevel) (x : Q) (d : t) : exc t :=
  v <- get k d ;; Ok (set k (v + x) d).

(** [d.values()] *)
Definition values (d : t) : list Q := map snd d.

(** [d.get(k)] for a key of [d]; 0 stands for the [None] of a missing key. *)
Definition value_of (k : CognitiveLevel) (d : t) : Q :=
  match get k d with
  | Ok v => v
  | Raise _ => 0
  end.

End Board.

(** [sorted(l, key=key, reverse=True)]: descending, elements with equal
    keys staying in their order. *)
Fixpoint insert_desc {A : Type} (key : A -> Q) (x : A) (l : list A) : list A :=
  match l with
  | [] => [x]
  | y :: l' =>
      if PyNum.Qlt_bool (key x) (key y) then y :: insert_desc key x l'
      else x :: l
  end.

Fixpoint sorted_desc {A : Type} (key : A -> Q) (l : list A) : list A :=
  match l with
  | [] => []
  | x :: l' => insert_desc key x (sorted_desc key l')
  end.

(* ===================================================================== *)
(** * The classifier *)
(* ===================================================================== *)

Record ClassificationResult : Type := {
  matches_level : bool;
  confidence : Q;
  actual_level : string;
  explanation : string;
  scores : list (CognitiveLevel * Q)
}.

Module Blooms.
Import PyStr PyNum.

(** ** [_analyze_document_context] *)

Definition doc_references : list string :=
  ["according to (the|this) (text|document|passage|reading|author)";
   "based on (the|this) (text|document|passage|reading)";
   "from the (text|document|passage|reading)";
   "as described in";
   "as stated in";
   "the (text|document|passage|reading) (says|states|describes|implies)";
   "what evidence in the text"].

(** [document_text] is the lowercased document the caller passes. *)
Definition _analyze_document_context
    (question_text document_text : string) (level : CognitiveLevel) : Q :=
  let score := 0 in
  let question_lower := lower question_text in
  let score :=
    if existsb (fun pattern => Regex.search pattern question_lower)
               doc_references
    then if Level.mem level [Analyzing; Evaluating]
         then score + 2.5 else score + 1.0
    else score in
  let score :=
    if Level.eqb level Creating then
      if (negb (String.eqb document_text "")
          && (contains "create a new" question_lower
              || contains "design an alternative" question_lower))%bool
      then
        let content_terms := Regex.findall_terms question_text in
        if existsb (fun term => contains (lower term) document_text)
                   content_terms
        then score + 1.5 else score
      else score
    else score in
  score.

(** ** [_analyze_question_complexity] *)

Definition subordinators : list string :=
  ["because"; "although"; "while"; "if"; "when"; "unless"; "since"].
Definition coordinators : list string :=
  ["and"; "but"; "or"; "however"; "therefore"; "thus"].
Definition conditionals : list string :=
  ["would"; "could"; "might"; "should"].

Definition has_subordination (question_text : string) : bool :=
  any_in subordinators (lower question_text).
Definition has_coordination (question_text : string) : bool :=
  any_in coordinators (lower question_text).
Definition has_conditionals (question_text : string) : bool :=
  any_in conditionals (lower question_text).

Definition structural_complexity (question_text : string) : Q :=
  let structural_complexity :=
    if has_subordination question_text then 0.4 else 0.1 in
  let structural_complexity :=
    structural_complexity
    + (if has_coordination question_text then 0.2 else 0.0) in
  let structural_complexity :=
    structural_complexity
    + (if has_conditionals question_text then 0.2 else 0.0) in
  structural_complexity.

Definition total_complexity (question_text : string) : Q :=
  let words := split question_text in
  let word_count := List.length words in
  let sentence_complexity := py_min (of_nat word_count / 10) 1.0 in
  (sentence_complexity + structural_complexity question_text) / 2.

Definition _analyze_question_complexity
    (question_text : string) (level : CognitiveLevel) (threshold : Q) : Q :=
  let total_complexity := total_complexity question_text in
  if Qle_bool threshold total_complexity then 0.8
  else if Qlt_bool total_complexity (threshold - 0.2) then - 0.8
  else 0.0.

(** ** [_handle_special_cases] *)

Fixpoint for_each {A S : Type} (l : list A) (body : A -> S -> exc S) (s : S)
  : exc S :=
  match l with
  | [] => Ok s
  | x :: l' => s' <- body x s ;; for_each l' body s'
  end.

Definition _handle_special_cases
    (question_text : string) (level_scores : Board.t) : exc Board.t :=
  let question_lower := lower question_text in
  level_scores <-
    (if Regex.search "^what (did|happened)" question_lower then
       level_scores <- Board.add Remembering 2.5 level_scores ;;
       for_each [Understanding; Applying; Analyzing; Evaluating; Creating]
         (fun level level_scores =>
            v <- Board.get level level_scores ;;
            Ok (Board.set level (py_max (v - 1.5) 0) level_scores))
         level_scores
     else Ok level_scores) ;;
  level_scores <-
    (if startswith "how " question_lower then
       if contains "how to" question_lower then
         Board.add Applying 1.5 level_scores
       else if (contains "how would" question_lower
                || contains "how could" question_lower)%bool then
         level_scores <- Board.add Applying 1.0 level_scores ;;
         Board.add Creating 1.0 level_scores
       else if (contains "how does" question_lower
                || contains "how did" question_lower)%bool then
         level_scores <- Board.add Understanding 1.0 level_scores ;;
         Board.add Analyzing 0.5 level_scores
       else Ok level_scores
     else Ok level_scores) ;;
  level_scores <-
    (if startswith "why " question_lower then
       level_scores <- Board.add Understanding 1.0 level_scores ;;
       Board.add Analyzing 1.5 level_scores
     else Ok level_scores) ;;
  Ok level_scores.

(** ** [_determine_level_with_confidence] *)

(** [max(l)] for a list with first element [first]: a later element
    replaces the current one only when it is greater. *)
Definition max_value (first : Q) (rest : list Q) : Q :=
  fold_left py_max rest first.

(** [max(d, key=d.get)] *)
Definition max_key (first : CognitiveLevel * Q)
    (rest : list (CognitiveLevel * Q)) : CognitiveLevel :=
  fst (fold_left
         (fun best item => if Qlt_bool (snd best) (snd item) then item else best)
         rest first).

Definition _determine_level_with_confidence (level_scores : Board.t)
  : CognitiveLevel * Q :=
  match level_scores with
  | [] => (Remembering, 0.5)
  | first :: rest =>
      if Qeq_bool (py_sum (Board.values level_scores)) 0
      then (Remembering, 0.5)
      else
        let max_score := max_value (snd first) (Board.values rest) in
        let detected_level := max_key first rest in
        let total_score := py_sum (Board.values level_scores) in
        if Qeq_bool total_score 0 then (detected_level, 0.5)
        else
          let confidence := max_score / total_score in
          let sorted_scores :=
            sorted_desc (fun v => v) (Board.values level_scores) in
          let confidence :=
            match sorted_scores with
            | s0 :: s1 :: _ =>
                let score_gap := s0 - s1 in
                let gap_ratio := score_gap / py_max 1 s0 in
                py_min (confidence + gap_ratio * 0.3) 0.95
            | _ => confidence
            end in
          (detected_level, confidence)
  end.

(** ** [_validate_classification] *)

Definition _validate_classification
    (confidence : Q) (question_text : string)
    (detected_level : CognitiveLevel) (document_text : pyval) : Q :=
  let words := split question_text in
  let word_count := List.length words in
  let confidence :=
    if (word_count <? 4)%nat then confidence * 0.7 else confidence in
  let confidence :=
    if (15 <? word_count)%nat then py_min (confidence * 1.1) 0.95
    else confidence in
  let confidence :=
    if has_char "?" question_text then py_min (confidence * 1.05) 0.95
    else confidence in
  let confidence :=
    if (negb (Level.eqb detected_level Remembering)
        && (8 <? word_count)%nat)%bool
    then py_min (confidence * 1.1) 0.95 else confidence in
  let confidence :=
    if (truthy document_text && (100 <? py_len document_text)%nat)%bool
    then py_min (confidence * 1.05) 0.95 else confidence in
  py_max 0.1 (py_min confidence 0.95).

(** ** [_get_classification_reasoning] and
       [_generate_detailed_explanation] *)

Definition reasoning_words (detected_level : CognitiveLevel) : list string :=
  match detected_level with
  | Remembering => ["who"; "what"; "when"; "where"; "list"; "name"; "define"]
  | Understanding => ["explain"; "summarize"; "in your own words"; "main idea"]
  | Applying => ["use"; "apply"; "solve"; "demonstrate"; "calculate"]
  | Analyzing =>
      ["difference"; "analyze"; "compare"; "contrast"; "relationship";
       "cause"; "effect"]
  | Evaluating =>
      ["evaluate"; "judge"; "critique"; "justify"; "defend"; "opinion"]
  | Creating => ["create"; "design"; "develop"; "propose"; "invent"; "what if"]
  end.

Definition reasoning_sentence (detected_level : CognitiveLevel) (hit : bool)
  : string :=
  match detected_level, hit with
  | Remembering, true =>
      "Question asks for direct recall of factual information."
  | Remembering, false =>
      "Question structure and keywords indicate a request for retrieval of known information."
  | Understanding, true =>
      "Question requires explaining ideas or concepts, not just recalling them."
  | Understanding, false =>
      "Question asks for interpretation or demonstration of comprehension."
  | Applying, true =>
      "Question requires using knowledge or a procedure in a specific situation or problem."
  | Applying, false =>
      "Question prompts the application of learned material in a new context."
  | Analyzing, true =>
      "Question requires breaking down information into parts and examining relationships."
  | Analyzing, false =>
      "Question prompts deconstruction of concepts to find underlying structure or motives."
  | Evaluating, true =>
      "Question requires making a judgment based on criteria and standards."
  | Evaluating, false =>
      "Question prompts justification of a decision or critical assessment of a value."
  | Creating, true =>
      "Question requires synthesizing elements into a new, coherent whole or proposing original ideas."
  | Creating, false =>
      "Question prompts the generation of new ideas, products, or ways of viewing things."
  end.

Definition _get_classification_reasoning
    (question : string) (detected_level : CognitiveLevel) (scores : Board.t)
  : string :=
  let question_lower := lower question in
  let reasoning := "Reasoning: " in
  let reasoning :=
    (reasoning ++
     reasoning_sentence detected_level
       (Regex.search_words (reasoning_words detected_level) question_lower))%string in
  let sorted_scores := sorted_desc snd scores in
  match sorted_scores with
  | (_, first_score) :: (next_best, second_score) :: _ =>
      if Qlt_bool (first_score - second_score) 1.0
      then (reasoning ++ " This was a close decision with '"
              ++ Level.name next_best ++ "'.")%string
      else reasoning
  | _ => reasoning
  end.

(** [", ".join(parts)] *)
Fixpoint join (sep : string) (parts : list string) : string :=
  match parts with
  | [] => ""
  | [p] => p
  | p :: rest => (p ++ sep ++ join sep rest)%string
  end.

Definition _generate_detailed_explanation
    (question : string) (detected_level : CognitiveLevel)
    (selected_level : string) (matches : bool) (scores : Board.t)
    (document_text : pyval) (confidence : Q) : string :=
  let base :=
    (if matches then
       "✓ CORRECT. The question is classified as '"
         ++ Level.name detected_level ++ "'."
     else
       "✗ INCORRECT. The question is classified as '"
         ++ Level.name detected_level ++ "', not '" ++ selected_level ++ "'.")%string in
  let conf_text :=
    (" Confidence: " ++ format_1f (confidence * 100) ++ "%.")%string in
  let score_text :=
    (" Score breakdown: "
       ++ join ", "
            (map (fun '(l, s) => (Level.name l ++ ":" ++ format_1f s)%string)
                 scores)
       ++ ".")%string in
  let word_count := List.length (split question) in
  let quality :=
    if ((6 <? word_count)%nat && has_char "?" question)%bool
    then "Well-structured" else "Needs more specificity" in
  let quality_text :=
    (" Question quality: " ++ quality ++ " ("
       ++ str_N (N.of_nat word_count) ++ " words).")%string in
  let doc_text :=
    if (truthy document_text && (0 <? py_len document_text)%nat)%bool
    then " Document context was utilized."
    else " No document provided for context." in
  let reasoning :=
    _get_classification_reasoning question detected_level scores in
  (base ++ conf_text ++ score_text ++ quality_text ++ doc_text
     ++ " " ++ reasoning)%string.

(** ** [analyze_question_blooms_level] *)

(** The body of the loop over [blooms_processes.items()]: the score of
    one level. *)
Definition level_score
    (document_text : pyval) (question_text : string)
    (question_lower question_clean document_lower : string)
    (level : CognitiveLevel) (data : LevelProfile) : Q :=
  let score := 0 in
  let score :=
    fold_left
      (fun score keyword =>
         if Regex.search_word keyword question_clean
         then score + 1.5 * weight data else score)
      (keywords data) score in
  let score :=
    fold_left
      (fun score pattern =>
         if Regex.search pattern question_lower
         then score + 2.0 * weight data else score)
      (question_patterns data) score in
  let question_words := split question_clean in
  let score :=
    if existsb (fun word => mem word (verbs data)) (firstn 3 question_words)
    then score + 1.0 * weight data else score in
  let score :=
    if truthy document_text then
      let doc_score :=
        _analyze_document_context question_text document_lower level in
      let doc_score :=
        if Level.mem level [Applying; Analyzing; Evaluating; Creating]
        then doc_score * 1.5 else doc_score in
      score + doc_score
    else score in
  let complexity_score :=
    _analyze_question_complexity question_text level
      (complexity_threshold data) in
  let score := score + complexity_score in
  py_max score 0.

(** The [try] block. *)
Definition analyze_body
    (document_text question_text : pyval) (selected_blooms_level : string)
  : exc ClassificationResult :=
  match question_text with
  | PyNone =>
      (* [question_text.lower()], the first statement *)
      Raise "'NoneType' object has no attribute 'lower'"
  | PyStr question =>
      let question_lower := strip (lower question) in
      let document_lower :=
        match document_text with
        | PyStr d => if truthy document_text then lower d else ""
        | PyNone => ""
        end in
      let question_clean := Regex.sub_punct question_lower in
      let question_clean := strip (Regex.sub_spaces false question_clean) in
      let level_scores :=
        map (fun '(level, data) =>
               (level,
                level_score document_text question question_lower
                  question_clean document_lower level data))
            Registry.blooms_processes in
      level_scores <- _handle_special_cases question level_scores ;;
      let '(detected_level, confidence) :=
        _determine_level_with_confidence level_scores in
      let confidence :=
        _validate_classification confidence question detected_level
          document_text in
      let matches := String.eqb (Level.name detected_level) selected_blooms_level in
      let explanation :=
        _generate_detailed_explanation question detected_level
          selected_blooms_level matches level_scores document_text
          confidence in
      Ok {| matches_level := matches;
            confidence := round2 confidence;
            actual_level := Level.name detected_level;
            explanation := explanation;
            scores := map (fun '(k, v) => (k, round2 v)) level_scores |}
  end.

(** The [except Exception] clause. *)
Definition analyze_question_blooms_level
    (document_text question_text : pyval) (selected_blooms_level : string)
  : ClassificationResult :=
  match analyze_body document_text question_text selected_blooms_level with
  | Ok result => result
  | Raise e =>
      {| matches_level := false;
         confidence := 0.0;
         actual_level := "Error";
         explanation := ("Analysis failed: " ++ e)%string;
         scores := [] |}
  end.

End Blooms.

(* ===================================================================== *)
(** * Vocabulary of the statements *)
(* ===================================================================== *)

Module Spec.
Import PyStr PyNum.

(** A score board with one entry per level, in the order of the
    enumeration. *)
Definition full (a b c d e f : Q) : Board.t :=
  [(Remembering, a); (Understanding, b); (Applying, c);
   (Analyzing, d); (Evaluating, e); (Creating, f)].

(** The row of a level in [blooms_processes]. *)
Definition profile (level : CognitiveLevel) : LevelProfile :=
  match find (fun row => Level.eqb level (fst row)) Registry.blooms_processes with
  | Some row => snd row
  | None => {| keywords := []; question_patterns := []; verbs := [];
               weight := 0; complexity_threshold := 0 |}
  end.

(** The question forms the main function derives before scoring. *)
Definition question_lower (question : string) : string :=
  strip (lower question).

Definition question_clean (question : string) : string :=
  strip (Regex.sub_spaces false (Regex.sub_punct (question_lower question))).

Definition document_lower (document_text : pyval) : string :=
  match document_text with
  | PyStr d => if truthy document_text then lower d else ""
  | PyNone => ""
  end.

(** The score of a level as the loop of the main function leaves it. *)
Definition raw_score (document_text : pyval) (question : string)
    (level : CognitiveLevel) : Q :=
  Blooms.level_score document_text question (question_lower question)
    (question_clean question) (document_lower document_text)
    level (profile level).

(** What each of the three special cases does to the score [v] of
    [level], [ql] being the lowercased question. *)
Definition adjust_what (ql : string) (level : CognitiveLevel) (v : Q) : Q :=
  if Regex.search "^what (did|happened)" ql then
    match level with
    | Remembering => v + 2.5
    | _ => py_max (v - 1.5) 0
    end
  else v.

Definition adjust_how (ql : string) (level : CognitiveLevel) (v : Q) : Q :=
  if startswith "how " ql then
    if contains "how to" ql then
      match level with Applying => v + 1.5 | _ => v end
    else if (contains "how would" ql || contains "how could" ql)%bool then
      match level with Applying | Creating => v + 1.0 | _ => v end
    else if (contains "how does" ql || contains "how did" ql)%bool then
      match level with
      | Understanding => v + 1.0
      | Analyzing => v + 0.5
      | _ => v
      end
    else v
  else v.

Definition adjust_why (ql : string) (level : CognitiveLevel) (v : Q) : Q :=
  if startswith "why " ql then
    match level with
    | Understanding => v + 1.0
    | Analyzing => v + 1.5
    | _ => v
    end
  else v.

Definition adjust (question : string) (level : CognitiveLevel) (v : Q) : Q :=
  let ql := lower question in
  adjust_why ql level (adjust_how ql level (adjust_what ql level v)).

(** The score of a level after the special cases. *)
Definition final_score (document_text : pyval) (question : string)
    (level : CognitiveLevel) : Q :=
  adjust question level (raw_score document_text question level).

(** The board the decision is taken on. *)
Definition final_board (document_text : pyval) (question : string) : Board.t :=
  full (final_score document_text question Remembering)
       (final_score document_text question Understanding)
       (final_score document_text question Applying)
       (final_score document_text question Analyzing)
       (final_score document_text question Evaluating)
       (final_score document_text question Creating).

(** The classifier, called without document and with the expected
    level as target, finds that level with a confidence of at least 0.5. *)
Definition classified_as (question : string) (expected : CognitiveLevel)
  : Prop :=
  let r :=
    Blooms.analyze_question_blooms_level PyNone (PyStr question)
      (Level.name expected) in
  actual_level r = Level.name expected
  /\ matches_level r = true
  /\ 0.5 <= confidence r.

(** The same, as a computation. *)
Definition classified_asb (question : string) (expected : CognitiveLevel)
  : bool :=
  let r :=
    Blooms.analyze_question_blooms_level PyNone (PyStr question)
      (Level.name expected) in
  (String.eqb (actual_level r) (Level.name expected)
   && matches_level r && Qle_bool 0.5 (confidence r))%bool.

(** The entry of a level in the [scores] of a result, if any. *)
Definition score_of (level : CognitiveLevel) (r : ClassificationResult)
  : option Q :=
  match Board.get level (scores r) with
  | Ok v => Some v
  | Raise _ => None
  end.

(** The question contains one of the citation phrasings. *)
Definition cites_document (question : string) : bool :=
  existsb (fun pattern => Regex.search pattern (lower question))
          Blooms.doc_references.

(** The position of a level in the enumeration. *)
Definition rank (l : CognitiveLevel) : nat :=
  match l with
  | Remembering => 0
  | Understanding => 1
  | Applying => 2
  | Analyzing => 3
  | Evaluating => 4
  | Creating => 5
  end.

End Spec.

(* ===================================================================== *)
(** * The code around the classifier

    [utils/validation.py], the functions of [utils/file_utils.py] the
    routes call, and [extract_text_from_file] and [check_blooms_level] of
    [app/routes_vialli.py].  What these functions get from the file
    system, from the PDF libraries and from werkzeug is a parameter of
    the model. *)
(* ===================================================================== *)

Module PyMore.
Import PyStr.

(** [l[i]] *)
Definition index {A : Type} (l : list A) (i : nat) : exc A :=
  match nth_error l i with
  | Some x => Ok x
  | None => Raise "list index out of range"
  end.

(** The two sides of the last [sep] of [s], if there is one. *)
Fixpoint rsplit_last (sep : ascii) (s : string) : option (string * string) :=
  match s with
  | EmptyString => None
  | String c s' =>
      match rsplit_last sep s' with
      | Some (before, after) => Some (String c before, after)
      | None => if Ascii.eqb c sep then Some (EmptyString, s') else None
      end
  end.

(** [s.rsplit(sep, 1)] for a separator of one character. *)
Definition rsplit1 (sep : ascii) (s : string) : list string :=
  match rsplit_last sep s with
  | Some (before, after) => [before; after]
  | None => [s]
  end.

(** [s.split(sep)] for a separator of one character. *)
Fixpoint split_on (sep : ascii) (s : string) : list string :=
  match s with
  | EmptyString => [EmptyString]
  | String c s' =>
      if Ascii.eqb c sep then EmptyString :: split_on sep s'
      else match split_on sep s' with
           | piece :: rest => String c piece :: rest
           | [] => [String c EmptyString]
           end
  end.

(** The characters [int] strips from both ends of its argument. *)
Definition is_int_space (c : ascii) : bool :=
  (in_range 9 13 c || N.eqb (code c) 32
   || N.eqb (code c) 133 || N.eqb (code c) 160)%bool.

Fixpoint lstrip_int (s : string) : string :=
  match s with
  | String c s' => if is_int_space c then lstrip_int s' else s
  | EmptyString => EmptyString
  end.

Fixpoint all_int_space (s : string) : bool :=
  match s with
  | EmptyString => true
  | String c s' => (is_int_space c && all_int_space s')%bool
  end.

Fixpoint rstrip_int (s : string) : string :=
  match s with
  | EmptyString => EmptyString
  | String c s' =>
      if all_int_space s then EmptyString else String c (rstrip_int s')
  end.

Definition digit_value (c : ascii) : Z := Z.of_N (code c) - 48.

(** Decimal digits, with single underscores between digits only: the
    value read and the number of digits.  [after_digit] tells that the
    previous character was a digit. *)
Fixpoint read_digits (value : Z) (count : nat) (after_digit : bool) (s : string)
  : option (Z * nat) :=
  match s with
  | EmptyString => if after_digit then Some (value, count) else None
  | String c s' =>
      if is_digit c then
        read_digits (value * 10 + digit_value c)%Z (S count) true s'
      else if (Ascii.eqb c "_" && after_digit)%bool then
        read_digits value count false s'
      else None
  end.

(** [int(s)] for a string; [None] stands for [ValueError].
    [max_str_digits] is the interpreter's limit on the number of digits
    ([sys.get_int_max_str_digits()], 4300 by default, 0 for no limit). *)
Definition py_int (max_str_digits : nat) (s : string) : option Z :=
  let s := rstrip_int (lstrip_int s) in
  let '(negative, digits) :=
    match s with
    | String "-" s' => (true, s')
    | String "+" s' => (false, s')
    | _ => (false, s)
    end in
  match read_digits 0 0 false digits with
  | Some (value, count) =>
      if (negb (max_str_digits =? 0)%nat && (max_str_digits <? count)%nat)%bool
      then None
      else Some (if negative then (- value)%Z else value)
  | None => None
  end.

(** The last character of [s], or [prev] when [s] is empty. *)
Fixpoint last_or (prev : option ascii) (s : string) : option ascii :=
  match s with
  | EmptyString => prev
  | String c s' => last_or (Some c) s'
  end.

Definition last_char (s : string) : option ascii := last_or None s.

(** [str(n)] for an integer. *)
Definition str_Z (n : Z) : string := NilZero.string_of_int (Z.to_int n).

End PyMore.

(** [config.py] *)
Module Config.

(** The set [ALLOWED_EXTENSIONS], in some order of iteration. *)
Definition ALLOWED_EXTENSIONS : list string :=
  ["txt"; "pdf"; "doc"; "docx"; "ppt"; "pptx"].

Definition MAX_QUESTIONS : Z := 20.

End Config.

(** [utils/validation.py] *)
Module Validation.
Import PyStr PyMore.

Definition validate_num_questions
    (max_str_digits : nat) (num_questions_str : string) (min_val max_val : Z)
  : option Z * option string :=
  match py_int max_str_digits num_questions_str with
  | Some num_questions =>
      if ((num_questions <? min_val)%Z || (max_val <? num_questions)%Z)%bool
      then (None,
            Some ("Number of questions must be between " ++ str_Z min_val
                    ++ " and " ++ str_Z max_val)%string)
      else (Some num_questions, None)
  | None => (None, Some "Invalid number of questions")
  end.

(** [uploaded_file] is [None] or an upload, given by its [filename]. *)
Definition validate_file_and_params
    (max_str_digits : nat) (uploaded_file : option string)
    (num_questions_str : string) (max_questions : Z)
    (allowed_extensions : list string) : exc (option string) :=
  match uploaded_file with
  | None => Ok (Some "No file selected.")
  | Some filename =>
      if String.eqb filename "" then Ok (Some "No file selected.")
      else if negb (has_char "." filename)
      then Ok (Some "Invalid file: missing file extension.")
      else
        part <- index (rsplit1 "." filename) 1 ;;
        let file_ext := lower part in
        if negb (mem file_ext allowed_extensions) then
          let error_msg :=
            ("Invalid file type (" ++ file_ext ++ "). Allowed types are: "
               ++ Blooms.join ", " allowed_extensions)%string in
          Ok (Some error_msg)
        else
          let '(_, error) :=
            validate_num_questions max_str_digits num_questions_str 1
              max_questions in
          match error with
          | Some e => Ok (Some e)
          | None => Ok None
          end
  end.

End Validation.

(** [utils/file_utils.py] *)
Module FileUtils.
Import PyStr PyMore.

(** [allowed_file]; the [and] does not evaluate its right side when the
    left one is false. *)
Definition allowed_file (filename : string) : exc bool :=
  if has_char "." filename then
    part <- index (rsplit1 "." filename) 1 ;;
    Ok (mem (lower part) Config.ALLOWED_EXTENSIONS)
  else Ok false.

(** What [fitz] gives for a path: the text of each page, or one of the
    two kinds of exception the function tells apart. *)
Inductive fitz_result : Type :=
| Pages (texts : list string)
| FileNotFound
| Failure (msg : string).

(** [extract_text_from_pdf]: the cleaned text and the error. *)
Definition extract_text_from_pdf
    (fitz_open : string -> fitz_result) (pdf_path : string)
  : option string * option string :=
  match fitz_open pdf_path with
  | Pages texts =>
      let text_content := fold_left String.append texts "" in
      let cleaned_text := strip (Regex.sub_spaces false text_content) in
      let lines := split_on Regex.newline cleaned_text in
      let cleaned_lines :=
        filter (fun line => (50 <? String.length line)%nat) lines in
      let cleaned_text := Blooms.join " " cleaned_lines in
      (Some cleaned_text, None)
  | FileNotFound =>
      (None, Some ("PDF file not found at: " ++ pdf_path)%string)
  | Failure msg =>
      (None, Some ("Error during PDF text extraction: " ++ msg)%string)
  end.

(** [save_uploaded_file].  [file] is [None] or an upload given by its
    filename, true when the filename is not empty; [save] is
    [os.makedirs] followed by [file.save]. *)
Definition save_uploaded_file
    (secure_filename : string -> string) (upload_path : string -> string)
    (save : string -> exc unit) (file : option string)
  : exc (option string * option string * option string) :=
  match file with
  | Some name =>
      if negb (String.eqb name "") then
        allowed <- allowed_file name ;;
        if allowed then
          let filename := secure_filename name in
          let file_path := upload_path filename in
          _ <- save file_path ;;
          Ok (Some file_path, Some filename, None)
        else Ok (None, None, Some "Invalid file format")
      else Ok (None, None, Some "Invalid file format")
  | None => Ok (None, None, Some "Invalid file format")
  end.

End FileUtils.

(** [extract_text_from_file] and [check_blooms_level] of
    [app/routes_vialli.py] *)
Module Routes.
Import PyStr PyMore.

(** The loop over [pdf.pages]: [pages] gives, for each page, what
    [page.extract_text()] returns or raises; [i] is the index of the
    first page of [pages]. *)
Fixpoint read_pages (i : nat) (pages : list (exc pyval)) (text : string)
  : exc string :=
  match pages with
  | [] => Ok text
  | page :: rest =>
      page_text <- page ;;
      let text :=
        match page_text with
        | PyStr t => if truthy page_text then (text ++ t ++ String Regex.newline "")%string else text
        | PyNone => text
        end in
      if (10 <=? i)%nat then Ok text else read_pages (S i) rest text
  end.

(** The body of the [try] block: the text read, or [None] for the
    [return None] of an unsupported extension. *)
Definition extract_body
    (pdf_open : string -> exc (list (exc pyval)))
    (read_text : string -> exc string)
    (file_path ext : string) : exc (option string) :=
  let text := "" in
  if String.eqb ext "pdf" then
    pages <- pdf_open file_path ;;
    text <- read_pages 0 pages text ;;
    Ok (Some text)
  else if String.eqb ext "docx" then
    (* [docx.Document]: the module never imports [docx] *)
    Raise "name 'docx' is not defined"
  else if String.eqb ext "txt" then
    text <- read_text file_path ;;
    Ok (Some text)
  else Ok None.

(** [extract_text_from_file].  [pdf_open] is [pdfplumber.open] with the
    [pages] of the document, [read_text] is [open(...).read()]. *)
Definition extract_text_from_file
    (pdf_open : string -> exc (list (exc pyval)))
    (read_text : string -> exc string)
    (file_path : string) : exc pyval :=
  part <- index (rsplit1 "." file_path) 1 ;;
  let ext := lower part in
  match extract_body pdf_open read_text file_path ext with
  | Raise _ => Ok PyNone
  | Ok None => Ok PyNone
  | Ok (Some text) =>
      Ok (if negb (String.eqb (strip text) "") then PyStr text else PyNone)
  end.

(** The request of [check_blooms_level]: the filename of the upload
    [request.files['file']] when the request has one, and the two fields
    of the form when they are present. *)
Record request : Type := {
  file : option string;
  form_question : option string;
  form_blooms_level : option string
}.

(** What the route answers: a redirection to the checker page with a
    flashed message, or the result page. *)
Inductive response : Type :=
| Redirect (flashed : string)
| Render (question selected_level : string) (analysis : ClassificationResult)
         (filename : string).

(** The dict [blooms_mapping], as [blooms_mapping.get(code, code)]. *)
Definition blooms_mapping : list (string * string) :=
  [("remember", "Remembering"); ("understand", "Understanding");
   ("apply", "Applying"); ("analyze", "Analyzing");
   ("evaluate", "Evaluating"); ("create", "Creating")].

Fixpoint get_default (d : list (string * string)) (key default : string)
  : string :=
  match d with
  | [] => default
  | (k, v) :: d' => if String.eqb key k then v else get_default d' key default
  end.

(** [request.form.get(field, '')] *)
Definition form_get (field : option string) : string :=
  match field with
  | Some v => v
  | None => ""
  end.

(** [check_blooms_level].  [secure_filename] is werkzeug's, [upload_path]
    is [os.path.join(Config.UPLOAD_FOLDER, .)], [save] is [os.makedirs]
    followed by [file.save]; an exception that leaves the function is a
    [Raise]. *)
Definition check_blooms_level
    (secure_filename : string -> string) (upload_path : string -> string)
    (save : string -> exc unit)
    (pdf_open : string -> exc (list (exc pyval)))
    (read_text : string -> exc string)
    (req : request) : exc response :=
  match file req with
  | None => Ok (Redirect "No file part in the request")
  | Some name =>
      if String.eqb name "" then Ok (Redirect "No file selected")
      else
        allowed <- FileUtils.allowed_file name ;;
        if allowed then
          let filename := secure_filename name in
          let file_path := upload_path filename in
          _ <- save file_path ;;
          document_text <- extract_text_from_file pdf_open read_text file_path ;;
          if negb (truthy document_text) then
            Ok (Redirect "Could not extract text from the uploaded file")
          else
            let question_text := strip (form_get (form_question req)) in
            let blooms_level := strip (form_get (form_blooms_level req)) in
            if String.eqb question_text "" then
              Ok (Redirect "Please provide a question to analyze")
            else if String.eqb blooms_level "" then
              Ok (Redirect "Please select a Bloom's Taxonomy level")
            else
              let selected_blooms_name :=
                get_default blooms_mapping blooms_level blooms_level in
              let analysis_result :=
                Blooms.analyze_question_blooms_level document_text
                  (PyStr question_text) selected_blooms_name in
              Ok (Render question_text selected_blooms_name analysis_result
                    filename)
        else
          Ok (Redirect
                "Invalid file format. Please upload PDF, TXT, or DOCX files.")
  end.

End Routes.

(* ===================================================================== *)
(** * Facts about the string primitives *)
(* ===================================================================== *)

Module PyStrFacts.
Import PyStr.

Example split_ex :
  split "  What is the capital? " = ["What"; "is"; "the"; "capital?"].
Proof. reflexivity. Qed.

Example strip_ex : strip "  a b  " = "a b".
Proof. reflexivity. Qed.

Example lower_ex : lower "What IS_it 5?" = "what is_it 5?".
Proof. reflexivity. Qed.

Lemma app_nil_r (s : string) : (s ++ "")%string = s.
Proof. induction s as [|c s IH]; simpl; [reflexivity | now rewrite IH]. Qed.

Lemma app_assoc (s t u : string) :
  ((s ++ t) ++ u)%string = (s ++ (t ++ u))%string.
Proof. induction s as [|c s IH]; simpl; [reflexivity | now rewrite IH]. Qed.

Lemma app_eq_nil (s t : string) :
  (s ++ t)%string = "" -> s = "" /\ t = "".
Proof. destruct s; simpl; intros H; [auto | discriminate]. Qed.

(** [startswith] decides being a prefix. *)
Lemma startswith_app (p post : string) : startswith p (p ++ post) = true.
Proof.
  induction p as [|a p IH]; simpl; [reflexivity|].
  now rewrite Ascii.eqb_refl, IH.
Qed.

Lemma startswith_inv (p s : string) :
  startswith p s = true -> exists post, s = (p ++ post)%string.
Proof.
  revert s; induction p as [|a p IH]; intros s H.
  - now exists s.
  - destruct s as [|b s]; simpl in H; [discriminate|].
    apply andb_true_iff in H as [Hab H].
    apply Ascii.eqb_eq in Hab; subst b.
    destruct (IH _ H) as [post ->]. now exists post.
Qed.

(** [contains] decides being a substring. *)
Lemma contains_app (p pre post : string) :
  contains p (pre ++ p ++ post) = true.
Proof.
  induction pre as [|c pre IH]; simpl.
  - destruct (p ++ post)%string eqn:E; simpl;
      rewrite <- E, startswith_app; reflexivity.
  - rewrite IH. apply orb_true_r.
Qed.

Lemma contains_inv (p s : string) :
  contains p s = true -> exists pre post, s = (pre ++ p ++ post)%string.
Proof.
  induction s as [|c s IH]; simpl; intros H.
  - rewrite orb_false_r in H. apply startswith_inv in H as [post ->].
    now exists "", post.
  - apply orb_true_iff in H as [H|H].
    + apply startswith_inv in H as [post ->]. now exists "", post.
    + destruct (IH H) as (pre & post & ->). now exists (String c pre), post.
Qed.

Lemma any_in_intro (ws : list string) (w s : string) :
  In w ws -> contains w s = true -> any_in ws s = true.
Proof.
  intros Hin Hc. apply existsb_exists. now exists w.
Qed.

End PyStrFacts.

(* ===================================================================== *)
(** * The matcher agrees with the meaning of patterns *)
(* ===================================================================== *)

Module RegexFacts.
Import PyStr Regex PyStrFacts.

Example compile_ex :
  compile "^a (b|c.*)" =
  Some (true, Cat (Chr "a") (Cat (Chr " ")
                 (Alt (Chr "b") (Cat (Chr "c") (Star Dot))))).
Proof. reflexivity. Qed.

Example search_ex1 :
  search "when did (the|.*) (happen|occur|start)" "so when did it all start?" = true.
Proof. reflexivity. Qed.

Example search_ex2 :
  search "^when did (the|.*) (happen|occur|start)" "so when did it all start?" = false.
Proof. reflexivity. Qed.

Example search_word_ex1 : search_word "effect" "the effective effect" = true.
Proof. reflexivity. Qed.

Example search_word_ex2 : search_word "effect" "the effective" = false.
Proof. reflexivity. Qed.

Example findall_ex :
  findall_terms "Use Newton's 3rd law, 42 times in ABc Paris."
  = ["Use"; "Newton"; "42"; "Paris"].
Proof. reflexivity. Qed.

Example sub_ex :
  strip (sub_spaces false (sub_punct "what's  up, doc? ")) = "what s up doc".
Proof. reflexivity. Qed.

Lemma matches_cat_inv r1 r2 s :
  matches (Cat r1 r2) s ->
  exists s1 s2, s = (s1 ++ s2)%string /\ matches r1 s1 /\ matches r2 s2.
Proof. intros H. inversion H; subst. eauto. Qed.

Lemma matches_alt_inv r1 r2 s :
  matches (Alt r1 r2) s -> matches r1 s \/ matches r2 s.
Proof. intros H. inversion H; subst; auto. Qed.

Lemma matches_nil_cat r1 r2 :
  matches (Cat r1 r2) "" -> matches r1 "" /\ matches r2 "".
Proof.
  intros H. apply matches_cat_inv in H as (s1 & s2 & E & H1 & H2).
  symmetry in E. apply app_eq_nil in E as [-> ->]. auto.
Qed.

Lemma nullable_spec r : nullable r = true <-> matches r "".
Proof.
  induction r as [| | c | | r1 IH1 r2 IH2 | r1 IH1 r2 IH2 | r IH]; simpl.
  - split; [discriminate | intros H; inversion H].
  - split; [constructor | reflexivity].
  - split; [discriminate | intros H; inversion H].
  - split; [discriminate | intros H; inversion H].
  - rewrite andb_true_iff, IH1, IH2. split.
    + intros [H1 H2]. apply (MCat _ _ "" "" H1 H2).
    + apply matches_nil_cat.
  - rewrite orb_true_iff, IH1, IH2. split.
    + intros [H|H]; [now apply MAltL | now apply MAltR].
    + intros H; inversion H; subst; auto.
  - split; [constructor | reflexivity].
Qed.

Lemma matches_void s : ~ matches Void s.
Proof. intros H; inversion H. Qed.

Lemma matches_eps s : matches Eps s -> s = "".
Proof. intros H; now inversion H. Qed.

Lemma cat_spec r1 r2 s : matches (cat r1 r2) s <-> matches (Cat r1 r2) s.
Proof.
  assert (L : forall t, matches r2 t -> matches (Cat Eps r2) t)
    by (intros t H; apply (MCat Eps r2 "" t); [constructor | exact H]).
  assert (R : forall t, matches r1 t -> matches (Cat r1 Eps) t).
  { intros t H. rewrite <- (app_nil_r t).
    apply MCat; [exact H | constructor]. }
  split.
  - destruct r1, r2; simpl; intros H; auto;
      try (now apply matches_void in H).
  - intros H. apply matches_cat_inv in H as (s1 & s2 & -> & H1 & H2).
    pose proof (MCat _ _ _ _ H1 H2) as H.
    destruct r1; try (now apply matches_void in H1);
      destruct r2; try (now apply matches_void in H2); simpl;
      try (apply matches_eps in H1; subst s1; simpl; exact H2);
      try (apply matches_eps in H2; subst s2; rewrite app_nil_r; exact H1);
      exact H.
Qed.

Lemma alt_spec r1 r2 s : matches (alt r1 r2) s <-> matches (Alt r1 r2) s.
Proof.
  split.
  - destruct r1, r2; simpl; intros H; auto;
      try (now apply MAltL); try (now apply MAltR).
  - intros H. inversion H; subst.
    + destruct r1; try (now exfalso; eapply matches_void; eauto);
        destruct r2; simpl; auto using MAltL.
    + destruct r2; try (now exfalso; eapply matches_void; eauto);
        destruct r1; simpl; auto using MAltR.
Qed.

(** A non-empty string of [Star r] starts with a non-empty string of [r]. *)
Lemma star_cons r a s :
  matches (Star r) (String a s) ->
  exists s1 s2, s = (s1 ++ s2)%string
                /\ matches r (String a s1) /\ matches (Star r) s2.
Proof.
  intros H. remember (Star r) as r' eqn:Er. remember (String a s) as t eqn:Et.
  revert s Et.
  induction H as [| | | | | | |r0 s1 s2 H1 _ H2 IH2]; intros t Et;
    try discriminate.
  injection Er as ->.
  destruct s1 as [|b s1]; simpl in Et.
  - apply IH2; auto.
  - injection Et as Eb Et. subst b t. exists s1, s2. auto.
Qed.

Lemma deriv_spec a r s : matches (deriv a r) s <-> matches r (String a s).
Proof.
  revert s.
  induction r as [| | c | | r1 IH1 r2 IH2 | r1 IH1 r2 IH2 | r IH];
    intros s; simpl.
  - split; intros H; inversion H.
  - split; intros H; inversion H.
  - destruct (Ascii.eqb_spec a c) as [->|Hne].
    + split; intros H; inversion H; subst; constructor.
    + split; intros H; inversion H; subst; congruence.
  - destruct (Ascii.eqb_spec a newline) as [->|Hne].
    + split; intros H; inversion H; subst; congruence.
    + split; intros H; inversion H; subst; now constructor.
  - rewrite alt_spec. split.
    + intros H. apply matches_alt_inv in H as [H'|H'].
      * apply cat_spec in H'.
        apply matches_cat_inv in H' as (s1 & s2 & -> & H1 & H2).
        apply IH1 in H1. apply (MCat r1 r2 (String a s1) s2 H1 H2).
      * destruct (nullable r1) eqn:N; [|now apply matches_void in H'].
        apply nullable_spec in N. apply IH2 in H'.
        apply (MCat r1 r2 "" _ N H').
    + intros H. apply matches_cat_inv in H as (s1 & s2 & E & H1 & H2).
      symmetry in E. destruct s1 as [|b s1]; simpl in E.
      * subst s2. apply MAltR.
        apply nullable_spec in H1. rewrite H1. now apply IH2.
      * injection E as Eb E. subst b s. apply MAltL, cat_spec.
        apply MCat; [now apply IH1 | exact H2].
  - rewrite alt_spec. split.
    + intros H; inversion H; subst;
        [apply MAltL; now apply IH1 | apply MAltR; now apply IH2].
    + intros H; inversion H; subst;
        [apply MAltL; now apply IH1 | apply MAltR; now apply IH2].
  - rewrite cat_spec. split.
    + intros H. apply matches_cat_inv in H as (s1 & s2 & -> & H1 & H2).
      apply IH in H1. apply (MStarS r (String a s1) s2 H1 H2).
    + intros H. apply star_cons in H as (s1 & s2 & -> & H1 & H2).
      apply MCat; [now apply IH | exact H2].
Qed.

(** [match_here] finds the prefixes of the pattern's language. *)
Lemma match_here_spec r s :
  match_here r s = true <->
  exists m post, s = (m ++ post)%string /\ matches r m.
Proof.
  revert r; induction s as [|a s IH]; intros r; simpl.
  - rewrite orb_false_r, nullable_spec. split.
    + intros H. now exists "", "".
    + intros (m & post & E & H). symmetry in E.
      apply app_eq_nil in E as [-> _]. exact H.
  - rewrite orb_true_iff, nullable_spec, IH. split.
    + intros [H|(m & post & -> & H)].
      * now exists "", (String a s).
      * exists (String a m), post. split; [reflexivity | now apply deriv_spec].
    + intros (m & post & E & H). destruct m as [|b m]; simpl in E.
      * now left.
      * injection E as Eb E. subst b s. right. exists m, post.
        split; [reflexivity | now apply deriv_spec].
Qed.

(** [search_from] finds the substrings of the pattern's language. *)
Lemma search_from_spec r s :
  search_from r s = true <->
  exists pre m post, s = (pre ++ m ++ post)%string /\ matches r m.
Proof.
  induction s as [|a s IH]; cbn [search_from].
  - rewrite orb_false_r, match_here_spec. split.
    + intros (m & post & E & H). now exists "", m, post.
    + intros (pre & m & post & E & H). symmetry in E.
      apply app_eq_nil in E as [-> E]. now exists m, post.
  - rewrite orb_true_iff, match_here_spec, IH. split.
    + intros [(m & post & E & H)|(pre & m & post & -> & H)].
      * now exists "", m, post.
      * now exists (String a pre), m, post.
    + intros (pre & m & post & E & H). destruct pre as [|b pre]; simpl in E.
      * left. now exists m, post.
      * injection E as Eb E. subst b s. right. now exists pre, m, post.
Qed.

(** [fullmatch] decides the pattern's language. *)
Lemma fullmatch_spec r s : fullmatch r s = true <-> matches r s.
Proof.
  revert r; induction s as [|a s IH]; intros r; simpl.
  - apply nullable_spec.
  - rewrite IH. apply deriv_spec.
Qed.

(** An anchored pattern is found in every string that starts with one
    of its strings, an unanchored one in every string that contains one. *)
Lemma search_anchored p r m post :
  compile p = Some (true, r) -> fullmatch r m = true ->
  search p (m ++ post) = true.
Proof.
  intros Hc Hm. unfold search. rewrite Hc. unfold run; simpl.
  apply match_here_spec. exists m, post.
  split; [reflexivity | now apply fullmatch_spec].
Qed.

Lemma search_unanchored p r pre m post :
  compile p = Some (false, r) -> fullmatch r m = true ->
  search p (pre ++ m ++ post) = true.
Proof.
  intros Hc Hm. unfold search. rewrite Hc. unfold run; simpl.
  apply search_from_spec. exists pre, m, post.
  split; [reflexivity | now apply fullmatch_spec].
Qed.

End RegexFacts.

(* ===================================================================== *)
(** * Facts about numbers *)
(* ===================================================================== *)

Module PyNumFacts.
Import PyNum.

Lemma Qlt_bool_iff a b : Qlt_bool a b = true <-> a < b.
Proof.
  unfold Qlt_bool. rewrite negb_true_iff. split.
  - intros H. apply Qnot_le_lt. intros Hle.
    apply Qle_bool_iff in Hle. congruence.
  - intros H. destruct (Qle_bool b a) eqn:E; [|reflexivity].
    apply Qle_bool_iff in E. lra.
Qed.

Lemma Qlt_bool_false a b : Qlt_bool a b = false <-> b <= a.
Proof.
  unfold Qlt_bool. rewrite negb_false_iff. apply Qle_bool_iff.
Qed.

(** [py_min] and [py_max] pick one of their arguments. *)
Lemma py_min_case a b :
  (b < a /\ py_min a b = b) \/ (a <= b /\ py_min a b = a).
Proof.
  unfold py_min. destruct (Qlt_bool b a) eqn:E.
  - left. now apply Qlt_bool_iff in E.
  - right. now apply Qlt_bool_false in E.
Qed.

Lemma py_max_case a b :
  (a < b /\ py_max a b = b) \/ (b <= a /\ py_max a b = a).
Proof.
  unfold py_max. destruct (Qlt_bool a b) eqn:E.
  - left. now apply Qlt_bool_iff in E.
  - right. now apply Qlt_bool_false in E.
Qed.

(** They are the minimum and the maximum of the rationals. *)
Lemma py_min_Qmin a b : py_min a b == Qmin a b.
Proof.
  destruct (py_min_case a b) as [[H ->]|[H ->]].
  - symmetry. apply Q.min_r. lra.
  - symmetry. now apply Q.min_l.
Qed.

Lemma py_max_Qmax a b : py_max a b == Qmax a b.
Proof.
  destruct (py_max_case a b) as [[H ->]|[H ->]].
  - symmetry. apply Q.max_r. lra.
  - symmetry. now apply Q.max_l.
Qed.

Lemma py_min_le_r a b : py_min a b <= b.
Proof. destruct (py_min_case a b) as [[H ->]|[H ->]]; lra. Qed.

Lemma py_min_le_l a b : py_min a b <= a.
Proof. destruct (py_min_case a b) as [[H ->]|[H ->]]; lra. Qed.

Lemma py_max_ge_l a b : a <= py_max a b.
Proof. destruct (py_max_case a b) as [[H ->]|[H ->]]; lra. Qed.

Lemma py_max_ge_r a b : b <= py_max a b.
Proof. destruct (py_max_case a b) as [[H ->]|[H ->]]; lra. Qed.

(** Rounding to an integer stays between the integers around. *)
Lemma round_half_even_ge (n : Z) (x : Q) :
  inject_Z n <= x -> (n <= round_half_even x)%Z.
Proof.
  intros H. unfold round_half_even.
  assert (F : (n <= Qfloor x)%Z).
  { rewrite <- (Qfloor_Z n). now apply Qfloor_resp_le. }
  destruct (Qcompare _ _); [destruct (Z.even _)| |]; lia.
Qed.

Lemma round_half_even_le (n : Z) (x : Q) :
  x <= inject_Z n -> (round_half_even x <= n)%Z.
Proof.
  intros H. unfold round_half_even.
  pose proof (Qfloor_le x) as F1.
  pose proof (Qlt_floor x) as F2.
  destruct (Qle_lt_or_eq _ _ H) as [Hlt|Heq].
  - assert (F : (Qfloor x < n)%Z).
    { rewrite Zlt_Qlt. lra. }
    destruct (Qcompare _ _); [destruct (Z.even _)| |]; lia.
  - assert (F : Qfloor x = n).
    { rewrite <- (Qfloor_Z n). now apply Qfloor_comp. }
    destruct (Qcompare (x - inject_Z (Qfloor x)) (1 # 2)) eqn:C.
    + apply Qeq_alt in C. rewrite F in C. lra.
    + lia.
    + apply Qgt_alt in C. rewrite F in C. lra.
Qed.

(** Rounding to an integer moves by at most one half. *)
Lemma round_half_even_near (x : Q) :
  x - (1 # 2) <= inject_Z (round_half_even x) <= x + (1 # 2).
Proof.
  unfold round_half_even.
  pose proof (Qfloor_le x) as F1.
  pose proof (Qlt_floor x) as F2.
  rewrite inject_Z_plus in F2. change (inject_Z 1) with 1 in F2.
  destruct (Qcompare (x - inject_Z (Qfloor x)) (1 # 2)) eqn:C.
  - apply Qeq_alt in C.
    destruct (Z.even _);
      [|rewrite inject_Z_plus; change (inject_Z 1) with 1]; lra.
  - apply Qlt_alt in C. lra.
  - apply Qgt_alt in C. rewrite inject_Z_plus.
    change (inject_Z 1) with 1. lra.
Qed.

Lemma div_100 (a : Q) : a / 100 == a * (1 # 100).
Proof. reflexivity. Qed.

(** [round(x, 2)] keeps a bound that has two decimals. *)
Lemma round2_ge (n : Z) (x : Q) :
  inject_Z n / 100 <= x -> inject_Z n / 100 <= round2 x.
Proof.
  unfold round2. rewrite !div_100. intros H.
  assert (R : (n <= round_half_even (x * 100))%Z).
  { apply round_half_even_ge. lra. }
  rewrite Zle_Qle in R. lra.
Qed.

Lemma round2_le (n : Z) (x : Q) :
  x <= inject_Z n / 100 -> round2 x <= inject_Z n / 100.
Proof.
  unfold round2. rewrite !div_100. intros H.
  assert (R : (round_half_even (x * 100) <= n)%Z).
  { apply round_half_even_le. lra. }
  rewrite Zle_Qle in R. lra.
Qed.

(** [round(x, 2)] moves by at most half a hundredth. *)
Lemma round2_near (x : Q) :
  x - (1 # 200) <= round2 x <= x + (1 # 200).
Proof.
  unfold round2. rewrite div_100.
  pose proof (round_half_even_near (x * 100)). lra.
Qed.

Lemma round2_nonneg (x : Q) : 0 <= x -> 0 <= round2 x.
Proof.
  intros H. pose proof (round2_ge 0 x) as R.
  rewrite div_100 in R. change (inject_Z 0) with 0 in R. lra.
Qed.

End PyNumFacts.

(* ===================================================================== *)
(** * Facts about the classifier *)
(* ===================================================================== *)

Module BloomsFacts.
Import PyStr PyNum PyStrFacts PyNumFacts RegexFacts Spec Blooms.

(** Every pattern of the source is in the fragment [Regex.compile] reads. *)
Lemma patterns_compile :
  forallb (fun p => match Regex.compile p with Some _ => true | None => false end)
    ("^what (did|happened)"
       :: doc_references
       ++ flat_map (fun row => question_patterns (snd row))
                   Registry.blooms_processes)
  = true.
Proof. vm_compute. reflexivity. Qed.

(** The loop builds a full board. *)
Lemma raw_scores_full (document_text : pyval) (question : string) :
  map (fun '(level, data) =>
         (level,
          level_score document_text question (question_lower question)
            (question_clean question) (document_lower document_text)
            level data))
      Registry.blooms_processes
  = full (raw_score document_text question Remembering)
         (raw_score document_text question Understanding)
         (raw_score document_text question Applying)
         (raw_score document_text question Analyzing)
         (raw_score document_text question Evaluating)
         (raw_score document_text question Creating).
Proof. reflexivity. Qed.

(** The special cases on a full board, level by level: no key is
    missing, so nothing is raised. *)
Lemma handle_full (question : string) (a b c d e f : Q) :
  _handle_special_cases question (full a b c d e f)
  = Ok (full (adjust question Remembering a)
             (adjust question Understanding b)
             (adjust question Applying c)
             (adjust question Analyzing d)
             (adjust question Evaluating e)
             (adjust question Creating f)).
Proof.
  unfold _handle_special_cases, adjust, adjust_why, adjust_how, adjust_what.
  destruct (Regex.search "^what (did|happened)" (lower question));
    destruct (startswith "how " (lower question));
    destruct (contains "how to" (lower question));
    destruct (contains "how would" (lower question));
    destruct (contains "how could" (lower question));
    destruct (contains "how does" (lower question));
    destruct (contains "how did" (lower question));
    destruct (startswith "why " (lower question));
    reflexivity.
Qed.

(** A question that is a string is analysed without any exception, and
    the fields of the result are the following. *)
Lemma analyze_body_str (document_text : pyval) (question selected : string) :
  exists r,
    analyze_body document_text (PyStr question) selected = Ok r
    /\ scores r = map (fun '(k, v) => (k, round2 v))
                      (final_board document_text question)
    /\ actual_level r
       = Level.name (fst (_determine_level_with_confidence
                            (final_board document_text question)))
    /\ matches_level r
       = String.eqb (actual_level r) selected
    /\ confidence r
       = round2 (_validate_classification
                   (snd (_determine_level_with_confidence
                           (final_board document_text question)))
                   question
                   (fst (_determine_level_with_confidence
                           (final_board document_text question)))
                   document_text).
Proof.
  unfold analyze_body.
  change (map _ Registry.blooms_processes)
    with (map (fun '(level, data) =>
                 (level,
                  level_score document_text question (question_lower question)
                    (question_clean question) (document_lower document_text)
                    level data))
              Registry.blooms_processes).
  rewrite raw_scores_full, handle_full. cbn [bind].
  fold (final_score document_text question Remembering).
  fold (final_score document_text question Understanding).
  fold (final_score document_text question Applying).
  fold (final_score document_text question Analyzing).
  fold (final_score document_text question Evaluating).
  fold (final_score document_text question Creating).
  fold (final_board document_text question).
  destruct (_determine_level_with_confidence _) as [detected conf].
  eexists. split; [reflexivity|]. cbn [scores actual_level matches_level confidence fst snd].
  auto.
Qed.



(** ** Scores are never negative *)

Lemma raw_score_nonneg document_text question level :
  0 <= raw_score document_text question level.
Proof. unfold raw_score, level_score. apply py_max_ge_r. Qed.

Lemma py_max_0_nonneg v : 0 <= py_max v 0.
Proof. apply py_max_ge_r. Qed.

Lemma adjust_what_nonneg ql level v : 0 <= v -> 0 <= adjust_what ql level v.
Proof.
  intros Hv. unfold adjust_what.
  pose proof (py_max_0_nonneg (v - 1.5)) as Hm.
  destruct (Regex.search _ ql); destruct level; lra.
Qed.

Lemma adjust_how_nonneg ql level v : 0 <= v -> 0 <= adjust_how ql level v.
Proof.
  intros Hv. unfold adjust_how.
  destruct (startswith _ ql); [|lra].
  destruct (contains "how to" ql); [destruct level; lra|].
  destruct (_ || _)%bool; [destruct level; lra|].
  destruct (_ || _)%bool; [destruct level; lra|lra].
Qed.

Lemma adjust_why_nonneg ql level v : 0 <= v -> 0 <= adjust_why ql level v.
Proof.
  intros Hv. unfold adjust_why.
  destruct (startswith _ ql); [destruct level; lra|lra].
Qed.

Lemma adjust_nonneg question level v : 0 <= v -> 0 <= adjust question level v.
Proof.
  intros Hv. unfold adjust.
  now apply adjust_why_nonneg, adjust_how_nonneg, adjust_what_nonneg.
Qed.

Lemma final_score_nonneg document_text question level :
  0 <= final_score document_text question level.
Proof. apply adjust_nonneg, raw_score_nonneg. Qed.

(** ** The validated confidence *)

Lemma validate_range c question detected document_text :
  0.1 <= _validate_classification c question detected document_text <= 0.95.
Proof.
  unfold _validate_classification.
  match goal with |- _ <= py_max _ (py_min ?x _) <= _ => generalize x end.
  intros x.
  destruct (py_min_case x 0.95) as [[H1 ->]|[H1 ->]];
    match goal with |- _ <= py_max ?a ?b <= _ =>
      destruct (py_max_case a b) as [[H2 ->]|[H2 ->]] end; lra.
Qed.

Lemma name_not_error (l : CognitiveLevel) : Level.name l <> "Error".
Proof. destruct l; discriminate. Qed.

(** A question that is [None] makes the first statement of the [try]
    block raise. *)
Lemma analyze_body_none (document_text : pyval) (selected : string) :
  analyze_body document_text PyNone selected
  = Raise "'NoneType' object has no attribute 'lower'".
Proof. reflexivity. Qed.

(** ** The first special case *)

(** A question that starts with "what did" or "what happened" triggers
    the first special case and neither of the other two. *)
Lemma what_rule_only (ql : string) :
  startswith "what did" ql = true \/ startswith "what happened" ql = true ->
  Regex.search "^what (did|happened)" ql = true
  /\ startswith "how " ql = false
  /\ startswith "why " ql = false.
Proof.
  intros [H|H]; apply startswith_inv in H as [post ->];
    (split; [|split; reflexivity]).
  - eapply (search_anchored _ _ "what did" post); vm_compute; reflexivity.
  - eapply (search_anchored _ _ "what happened" post); vm_compute; reflexivity.
Qed.

Lemma adjust_what_rule (question : string) (level : CognitiveLevel) (v : Q) :
  startswith "what did" (lower question) = true
  \/ startswith "what happened" (lower question) = true ->
  adjust question level v
  = match level with
    | Remembering => v + 2.5
    | _ => py_max (v - 1.5) 0
    end.
Proof.
  intros H. apply what_rule_only in H as (H1 & H2 & H3).
  unfold adjust, adjust_why, adjust_how, adjust_what.
  rewrite H1, H2, H3. reflexivity.
Qed.

(** ** The document signal *)

(** Away from Creating, the document signal does not look at the
    document. *)
Lemma doc_context_not_creating (question document : string) level :
  level <> Creating ->
  _analyze_document_context question document level
  = if cites_document question
    then if Level.mem level [Analyzing; Evaluating] then 0 + 2.5 else 0 + 1.0
    else 0.
Proof.
  intros H. unfold _analyze_document_context.
  fold (cites_document question).
  destruct level; try congruence; reflexivity.
Qed.

Lemma fold_cond_add_ge {A : Type} (p : A -> bool) (c : Q) (l : list A) (s : Q) :
  0 <= c ->
  s <= fold_left (fun score x => if p x then score + c else score) l s.
Proof.
  intros Hc. revert s. induction l as [|x l IH]; intros s; simpl.
  - lra.
  - specialize (IH (if p x then s + c else s)).
    destruct (p x); lra.
Qed.

Lemma weight_pos level : 0 < weight (profile level).
Proof. destruct level; reflexivity. Qed.

Lemma complexity_ge question level threshold :
  - 0.8 <= _analyze_question_complexity question level threshold.
Proof.
  unfold _analyze_question_complexity.
  destruct (Qle_bool _ _); [lra|]. destruct (Qlt_bool _ _); lra.
Qed.

(** The raw score of Analyzing or Evaluating: a part that ignores the
    document, to which a present document adds the document signal. *)
Lemma raw_score_split (question : string) (level : CognitiveLevel) :
  level = Analyzing \/ level = Evaluating ->
  exists s cx,
    0 <= s /\ - 0.8 <= cx
    /\ raw_score PyNone question level = py_max (s + cx) 0
    /\ forall c d,
        raw_score (PyStr (String c d)) question level
        = py_max (s + (if cites_document question then 0 + 2.5 else 0) * 1.5
                  + cx) 0.
Proof.
  intros Hl.
  assert (Hc : level <> Creating) by (destruct Hl; subst; discriminate).
  pose proof (weight_pos level) as Hw.
  unfold raw_score, level_score. cbn [truthy].
  match goal with
  | |- context [py_max (?S + ?CX) 0 = _] => exists S, CX
  end.
  split; [|split; [apply complexity_ge|split; [reflexivity|]]].
  - match goal with
    | |- 0 <= (if ?b then ?x + ?k else ?x) =>
        assert (Hx : 0 <= x); [|destruct b; lra]
    end.
    eapply Qle_trans; [|apply fold_cond_add_ge; lra].
    apply fold_cond_add_ge. lra.
  - intros c d.
    rewrite doc_context_not_creating by exact Hc.
    destruct Hl; subst level; reflexivity.
Qed.

Lemma raw_score_doc_indep (question : string) (level : CognitiveLevel)
    (d1 d2 : string) :
  level = Analyzing \/ level = Evaluating -> d1 <> "" -> d2 <> "" ->
  raw_score (PyStr d1) question level = raw_score (PyStr d2) question level.
Proof.
  intros Hl H1 H2.
  destruct (raw_score_split question level Hl) as (s & cx & _ & _ & _ & E).
  destruct d1 as [|c1 d1]; [congruence|].
  destruct d2 as [|c2 d2]; [congruence|].
  now rewrite !E.
Qed.

(** The special cases keep a gap between two scores of Analyzing or of
    Evaluating. *)
Lemma adjust_gap (question : string) (level : CognitiveLevel) (v0 v1 : Q) :
  level = Analyzing \/ level = Evaluating ->
  0 <= v0 -> v0 + 2.95 <= v1 ->
  adjust question level v0 + 1.45 <= adjust question level v1.
Proof.
  intros Hl H0 H1. unfold adjust.
  assert (W : adjust_what (lower question) level v0 + 1.45
              <= adjust_what (lower question) level v1).
  { unfold adjust_what. destruct (Regex.search _ _); [|lra].
    destruct (py_max_case (v0 - 1.5) 0) as [[? ->]|[? ->]];
      destruct (py_max_case (v1 - 1.5) 0) as [[? ->]|[? ->]];
      destruct Hl; subst level; lra. }
  revert W. generalize (adjust_what (lower question) level v0).
  generalize (adjust_what (lower question) level v1). intros w1 w0 W.
  assert (H : adjust_how (lower question) level w0 + 1.45
              <= adjust_how (lower question) level w1).
  { unfold adjust_how.
    destruct (startswith _ _); [|lra].
    destruct (contains "how to" _); [destruct Hl; subst level; lra|].
    destruct (_ || _)%bool; [destruct Hl; subst level; lra|].
    destruct (_ || _)%bool; [destruct Hl; subst level; lra|lra]. }
  revert H. generalize (adjust_how (lower question) level w0).
  generalize (adjust_how (lower question) level w1). intros h1 h0 H.
  unfold adjust_why.
  destruct (startswith _ _); [destruct Hl; subst level; lra|lra].
Qed.

Lemma raw_score_doc_indep_final (question : string) (level : CognitiveLevel)
    (d1 d2 : string) :
  level = Analyzing \/ level = Evaluating -> d1 <> "" -> d2 <> "" ->
  final_score (PyStr d1) question level = final_score (PyStr d2) question level.
Proof.
  intros Hl H1 H2. unfold final_score.
  now rewrite (raw_score_doc_indep question level d1 d2).
Qed.

(** The entry of a level in the result of a call that does not fail. *)
Lemma score_of_result document_text question selected level :
  score_of level
    (analyze_question_blooms_level document_text (PyStr question) selected)
  = Some (round2 (final_score document_text question level)).
Proof.
  unfold analyze_question_blooms_level, score_of.
  destruct (analyze_body_str document_text question selected)
    as (r & -> & -> & _).
  destruct level; reflexivity.
Qed.

(** ** The decision *)

Lemma insert_desc_length {A : Type} (key : A -> Q) (x : A) (l : list A) :
  List.length (insert_desc key x l) = S (List.length l).
Proof.
  induction l as [|y l IH]; simpl; [reflexivity|].
  destruct (Qlt_bool _ _); simpl; [now rewrite IH | reflexivity].
Qed.

Lemma sorted_desc_length {A : Type} (key : A -> Q) (l : list A) :
  List.length (sorted_desc key l) = List.length l.
Proof.
  induction l as [|x l IH]; simpl; [reflexivity|].
  now rewrite insert_desc_length, IH.
Qed.

(** The first two elements of the descending sort: the first is an
    element that bounds all the others, the second is another element
    that bounds all but the first. *)
Lemma sorted_top2 (l : list Q) :
  forall s0 s1 rest,
    sorted_desc (fun v => v) l = s0 :: s1 :: rest ->
    exists i j,
      i <> j
      /\ nth_error l i = Some s0 /\ nth_error l j = Some s1
      /\ s1 <= s0
      /\ (forall k x, nth_error l k = Some x -> x <= s0)
      /\ (forall k x, k <> i -> nth_error l k = Some x -> x <= s1).
Proof.
  induction l as [|x l IH]; intros s0 s1 rest H; simpl in H; [discriminate|].
  destruct (sorted_desc (fun v => v) l) as [|t0 [|t1 r]] eqn:E.
  - discriminate.
  - (* one element below [x] *)
    assert (L : l = [t0]).
    { pose proof (sorted_desc_length (fun v => v) l) as Len.
      rewrite E in Len. destruct l as [|y [|z l]]; try discriminate.
      simpl in E. congruence. }
    subst l. simpl in H.
    destruct (Qlt_bool x t0) eqn:C; injection H as <- <- <-.
    + apply Qlt_bool_iff in C. exists 1%nat, 0%nat.
      repeat apply conj; auto; try lra.
      * intros [|[|k]] y Hy; simpl in Hy; try (injection Hy as <-); try lra.
        destruct k; discriminate.
      * intros [|[|k]] y Hk Hy; simpl in Hy; try (injection Hy as <-);
          try lra; try congruence.
        destruct k; discriminate.
    + apply Qlt_bool_false in C. exists 0%nat, 1%nat.
      repeat apply conj; auto; try lra.
      * intros [|[|k]] y Hy; simpl in Hy; try (injection Hy as <-); try lra.
        destruct k; discriminate.
      * intros [|[|k]] y Hk Hy; simpl in Hy; try (injection Hy as <-);
          try lra; try congruence.
        destruct k; discriminate.
  - (* at least two elements below [x] *)
    destruct (IH t0 t1 r eq_refl) as (i & j & Hij & Hi & Hj & Hle & Hall & Hoth).
    simpl in H. destruct (Qlt_bool x t0) eqn:C0.
    + apply Qlt_bool_iff in C0.
      destruct (Qlt_bool x t1) eqn:C1; injection H as <- <- <-.
      * apply Qlt_bool_iff in C1. exists (S i), (S j).
        split; [congruence|]. split; [exact Hi|]. split; [exact Hj|].
        split; [exact Hle|]. split.
        -- intros [|k] y Hy; simpl in Hy.
           ++ injection Hy as <-. lra.
           ++ eapply Hall; eauto.
        -- intros [|k] y Hk Hy; simpl in Hy.
           ++ injection Hy as <-. lra.
           ++ apply (Hoth k y); [congruence | exact Hy].
      * apply Qlt_bool_false in C1. exists (S i), 0%nat.
        split; [congruence|]. split; [exact Hi|]. split; [reflexivity|].
        split; [lra|]. split.
        -- intros [|k] y Hy; simpl in Hy.
           ++ injection Hy as <-. lra.
           ++ eapply Hall; eauto.
        -- intros [|k] y Hk Hy; simpl in Hy.
           ++ injection Hy as <-. lra.
           ++ assert (y <= t1) by (apply (Hoth k y); [congruence | exact Hy]).
              lra.
    + apply Qlt_bool_false in C0. injection H as <- <- <-.
      exists 0%nat, (S i).
      split; [congruence|]. split; [reflexivity|]. split; [exact Hi|].
      split; [lra|]. split.
      * intros [|k] y Hy; simpl in Hy.
        -- injection Hy as <-. lra.
        -- assert (y <= t0) by (eapply Hall; eauto). lra.
      * intros [|k] y Hk Hy; simpl in Hy.
        -- congruence.
        -- eapply Hall; eauto.
Qed.

Lemma rank_eq_dec (l l' : CognitiveLevel) : {l = l'} + {l <> l'}.
Proof. decide equality. Qed.

Lemma rank_inj (l l' : CognitiveLevel) : rank l = rank l' -> l = l'.
Proof. destruct l, l'; simpl; intros H; try reflexivity; discriminate. Qed.

(** On a full board, positions are levels. *)
Lemma nth_values_full a b c d e f (l : CognitiveLevel) :
  nth_error (Board.values (full a b c d e f)) (rank l)
  = Some (Board.value_of l (full a b c d e f)).
Proof. destruct l; reflexivity. Qed.

Lemma nth_values_full_inv a b c d e f (k : nat) (x : Q) :
  nth_error (Board.values (full a b c d e f)) k = Some x ->
  exists l, rank l = k /\ Board.value_of l (full a b c d e f) = x.
Proof.
  intros H.
  destruct k as [|[|[|[|[|[|k]]]]]]; simpl in H; try (injection H as <-).
  - now exists Remembering.
  - now exists Understanding.
  - now exists Applying.
  - now exists Analyzing.
  - now exists Evaluating.
  - now exists Creating.
  - destruct k; discriminate.
Qed.

(** The first two elements of the sorted scores of a full board, as
    scores of two levels. *)
Lemma sorted_top2_full a b c d e f :
  let sb := full a b c d e f in
  exists s0 s1 rest l0 l1,
    sorted_desc (fun v => v) (Board.values sb) = s0 :: s1 :: rest
    /\ l0 <> l1
    /\ Board.value_of l0 sb = s0 /\ Board.value_of l1 sb = s1
    /\ (forall l, Board.value_of l sb <= s0)
    /\ (forall l, l <> l0 -> Board.value_of l sb <= s1).
Proof.
  intros sb.
  destruct (sorted_desc (fun v => v) (Board.values sb)) as [|s0 [|s1 rest]] eqn:E;
    try (pose proof (sorted_desc_length (fun v => v) (Board.values sb)) as Len;
         rewrite E in Len; discriminate).
  destruct (sorted_top2 _ _ _ _ E) as (i & j & Hij & Hi & Hj & _ & Hall & Hoth).
  apply nth_values_full_inv in Hi as (l0 & <- & H0).
  apply nth_values_full_inv in Hj as (l1 & <- & H1).
  exists s0, s1, rest, l0, l1. repeat apply conj; auto.
  - congruence.
  - intros l. eapply Hall. apply nth_values_full.
  - intros l Hl. eapply Hoth; [|apply nth_values_full].
    intros Hr. apply rank_inj in Hr. congruence.
Qed.

(** [max] over a full board: the value and the key it returns. *)
Lemma argmax_full a b c d e f :
  let sb := full a b c d e f in
  let level :=
    max_key (Remembering, a)
      [(Understanding, b); (Applying, c); (Analyzing, d); (Evaluating, e);
       (Creating, f)] in
  max_value a [b; c; d; e; f] = Board.value_of level sb
  /\ (forall l, Board.value_of l sb <= Board.value_of level sb)
  /\ (forall l, (rank l < rank level)%nat ->
                Board.value_of l sb < Board.value_of level sb).
Proof.
  unfold max_key, max_value, py_max. cbn [fold_left snd].
  destruct (Qlt_bool a b) eqn:C1; cbn [snd];
    match goal with |- context [Qlt_bool ?x c] =>
      destruct (Qlt_bool x c) eqn:C2 end; cbn [snd];
    match goal with |- context [Qlt_bool ?x d] =>
      destruct (Qlt_bool x d) eqn:C3 end; cbn [snd];
    match goal with |- context [Qlt_bool ?x e] =>
      destruct (Qlt_bool x e) eqn:C4 end; cbn [snd];
    match goal with |- context [Qlt_bool ?x f] =>
      destruct (Qlt_bool x f) eqn:C5 end; cbn [snd fst];
    repeat match goal with
           | H : Qlt_bool _ _ = true |- _ => apply Qlt_bool_iff in H
           | H : Qlt_bool _ _ = false |- _ => apply Qlt_bool_false in H
           end;
    (split; [reflexivity|]);
    (split; intros l; destruct l; cbn; intros; try lra; try lia).
Qed.

Lemma py_sum_full a b c d e f :
  py_sum (Board.values (full a b c d e f)) == a + b + c + d + e + f.
Proof. unfold py_sum; cbn. lra. Qed.

Lemma classified_as_intro question expected :
  classified_asb question expected = true -> classified_as question expected.
Proof.
  unfold classified_asb, classified_as. cbv zeta.
  rewrite !andb_true_iff, String.eqb_eq, Qle_bool_iff. tauto.
Qed.

End BloomsFacts.

(* ===================================================================== *)
(** * The properties of the specification *)
(* ===================================================================== *)

Module Claims.
Import PyStr PyNum PyStrFacts PyNumFacts RegexFacts Spec Blooms BloomsFacts.

(** C1. Each of the six canonical exemplar questions, classified with no
    document and its expected level as target, gets that level as
    [actual_level], with a confidence of at least 0.5. *)
Theorem C1_canonical_exemplars :
  classified_as "What is the capital of France?" Remembering
  /\ classified_as "Explain why photosynthesis is important." Understanding
  /\ classified_as "Calculate the area of a circle with radius 5." Applying
  /\ classified_as "Compare and contrast mitosis and meiosis." Analyzing
  /\ classified_as
       "Do you agree that the policy was effective? Justify your answer."
       Evaluating
  /\ classified_as "Design a new method to reduce plastic waste." Creating.
Proof.
  repeat apply conj; apply classified_as_intro; vm_compute; reflexivity.
Qed.

(** C2, as the specification states it, fails: a document that contains
    "according to the text" gives Analyzing the same score, 5.5, as the
    same document without the phrase. *)
Lemma C2_counterexample :
  let question := PyStr "Analyze how the heart pumps blood." in
  let with_phrase := "According to the text, the heart pumps blood." in
  let without_phrase := "The heart pumps blood." in
  contains "according to the text" (lower with_phrase) = true
  /\ contains "according to the text" (lower without_phrase) = false
  /\ exists v_with v_without,
      score_of Analyzing
        (analyze_question_blooms_level (PyStr with_phrase) question
           "Analyzing") = Some v_with
      /\ score_of Analyzing
           (analyze_question_blooms_level (PyStr without_phrase) question
              "Analyzing") = Some v_without
      /\ v_with == 5.5 /\ v_without == 5.5
      /\ ~ v_without < v_with.
Proof.
  cbv zeta. split; [reflexivity|]. split; [reflexivity|].
  do 2 eexists.
  split; [vm_compute; reflexivity|]. split; [vm_compute; reflexivity|].
  split; [reflexivity|]. split; [reflexivity|].
  intros H. vm_compute in H. discriminate.
Qed.

(** C2, amended. For every question and for Analyzing and Evaluating,
    the score does not depend on what the document contains: any two
    non-empty documents give the same score, the citation phrasings
    being looked for in the question.  When the question contains one
    of them, the score of the level with a non-empty document is
    strictly greater than with no document. *)
Theorem C2_document_presence
    (question selected d1 d2 : string) (level : CognitiveLevel) :
  level = Analyzing \/ level = Evaluating ->
  d1 <> "" -> d2 <> "" ->
  score_of level
    (analyze_question_blooms_level (PyStr d1) (PyStr question) selected)
  = score_of level
      (analyze_question_blooms_level (PyStr d2) (PyStr question) selected)
  /\ (cites_document question = true ->
      exists v_none v_doc,
        score_of level
          (analyze_question_blooms_level PyNone (PyStr question) selected)
        = Some v_none
        /\ score_of level
             (analyze_question_blooms_level (PyStr d1) (PyStr question)
                selected)
           = Some v_doc
        /\ v_none < v_doc).
Proof.
  intros Hl H1 H2. rewrite !score_of_result. split.
  - now rewrite (raw_score_doc_indep_final question level d1 d2).
  - intros Hc. do 2 eexists. split; [reflexivity|]. split; [reflexivity|].
    unfold final_score.
    destruct (raw_score_split question level Hl)
      as (s & cx & Hs & Hcx & E0 & E1).
    destruct d1 as [|c1 d1]; [congruence|].
    rewrite E0, E1, Hc.
    assert (G : py_max (s + cx) 0 + 2.95 <= py_max (s + (0 + 2.5) * 1.5 + cx) 0).
    { destruct (py_max_case (s + cx) 0) as [[? ->]|[? ->]];
        destruct (py_max_case (s + (0 + 2.5) * 1.5 + cx) 0) as [[? ->]|[? ->]];
        lra. }
    pose proof (py_max_0_nonneg (s + cx)) as P.
    pose proof (adjust_gap question level _ _ Hl P G) as A.
    pose proof (round2_near (adjust question level (py_max (s + cx) 0))).
    pose proof (round2_near
                  (adjust question level
                     (py_max (s + (0 + 2.5) * 1.5 + cx) 0))).
    lra.
Qed.

Lemma C2_document_presence_witness :
  let question := "According to the text, why did the empire fall?" in
  score_of Evaluating
    (analyze_question_blooms_level (PyStr "Rome fell in 476.")
       (PyStr question) "Evaluating")
  = score_of Evaluating
      (analyze_question_blooms_level (PyStr "x") (PyStr question)
         "Evaluating")
  /\ exists v_none v_doc,
      score_of Evaluating
        (analyze_question_blooms_level PyNone (PyStr question) "Evaluating")
      = Some v_none
      /\ score_of Evaluating
           (analyze_question_blooms_level (PyStr "Rome fell in 476.")
              (PyStr question) "Evaluating")
         = Some v_doc
      /\ v_none < v_doc.
Proof.
  pose proof (C2_document_presence
                "According to the text, why did the empire fall?"
                "Evaluating" "Rome fell in 476." "x" Evaluating) as H.
  destruct H as [E S]; [now right | discriminate | discriminate |].
  split; [exact E | apply S; vm_compute; reflexivity].
Defined.

(** C3, as the specification states it, fails: with an empty question
    and no document the confidence returned is not 0.5. *)
Lemma C3_counterexample :
  let r := analyze_question_blooms_level PyNone (PyStr "") "Remembering" in
  ~ (actual_level r = "Remembering"
     /\ confidence r == 0.5
     /\ Forall (fun kv => snd kv == 0) (scores r)).
Proof.
  intros r (_ & H & _). vm_compute in H. discriminate.
Qed.

(** C3, amended. With an empty question and no document, whatever the
    target level, [actual_level] is Remembering, the six scores are 0 and
    the confidence returned is 0.35: the 0.5 of the zero-sum fallback
    multiplied by 0.7 by the validator, the question having fewer than
    four words. *)
Theorem C3_empty_question (selected : string) :
  let r := analyze_question_blooms_level PyNone (PyStr "") selected in
  actual_level r = "Remembering"
  /\ confidence r == 0.35
  /\ map fst (scores r) = Level.all
  /\ Forall (fun kv => snd kv == 0) (scores r).
Proof.
  intros r. subst r.
  repeat apply conj; try (vm_compute; reflexivity).
  vm_compute. repeat constructor.
Qed.

(** C4. On a board of six scores: when their sum is 0 the decision is
    Remembering with confidence 0.5; otherwise it is the level of
    maximal score, the first one in the order of the enumeration when
    several levels have it, with confidence
    [min(top / total + ((top - second) / max(1, top)) * 0.3, 0.95)],
    [top] being that maximal score and [second] the highest score among
    the other five levels. *)
Theorem C4_decision_and_confidence (a b c d e f : Q) :
  let sb := full a b c d e f in
  let total := a + b + c + d + e + f in
  (total == 0 ->
     _determine_level_with_confidence sb = (Remembering, 0.5))
  /\ (~ total == 0 ->
      exists level conf top second,
        _determine_level_with_confidence sb = (level, conf)
        /\ Board.value_of level sb = top
        /\ (forall l, Board.value_of l sb <= top)
        /\ (forall l, (rank l < rank level)%nat -> Board.value_of l sb < top)
        /\ (exists l2, l2 <> level /\ Board.value_of l2 sb == second)
        /\ (forall l, l <> level -> Board.value_of l sb <= second)
        /\ conf == Qmin (top / total
                          + ((top - second) / Qmax 1 top) * 0.3) 0.95).
Proof.
  intros sb total.
  pose proof (py_sum_full a b c d e f) as Hsum. fold sb total in Hsum.
  split.
  - intros H0. unfold _determine_level_with_confidence, sb, full.
    fold (full a b c d e f). fold sb.
    assert (E : Qeq_bool (py_sum (Board.values sb)) 0 = true)
      by (apply Qeq_bool_iff; rewrite Hsum; exact H0).
    now rewrite E.
  - intros Hn.
    assert (E : Qeq_bool (py_sum (Board.values sb)) 0 = false).
    { destruct (Qeq_bool _ _) eqn:E; [|reflexivity].
      apply Qeq_bool_iff in E. rewrite Hsum in E. contradiction. }
    destruct (sorted_top2_full a b c d e f)
      as (s0 & s1 & rest & l0 & l1 & Hsort & Hne & H0 & H1 & Hall & Hoth).
    destruct (argmax_full a b c d e f) as (Hmax & Hge & Hfirst).
    fold sb in Hsort, H0, H1, Hall, Hoth, Hmax, Hge, Hfirst.
    set (level := max_key (Remembering, a)
                    [(Understanding, b); (Applying, c); (Analyzing, d);
                     (Evaluating, e); (Creating, f)]) in *.
    set (top := Board.value_of level sb) in *.
    assert (Etop : s0 == top).
    { apply Qle_antisym; [rewrite <- H0; apply Hge | apply Hall]. }
    exists level,
      (py_min (max_value a [b; c; d; e; f] / py_sum (Board.values sb)
               + (s0 - s1) / py_max 1 s0 * 0.3) 0.95),
      top, s1.
    repeat apply conj; auto.
    + unfold _determine_level_with_confidence, sb, full.
      fold (full a b c d e f). fold sb.
      rewrite E. cbn [snd Board.values map].
      change (map snd
                [(Understanding, b); (Applying, c); (Analyzing, d);
                 (Evaluating, e); (Creating, f)]) with [b; c; d; e; f].
      change (a :: [b; c; d; e; f]) with (Board.values sb).
      rewrite Hsort. reflexivity.
    + (* a level other than the decided one has the second score *)
      destruct (rank_eq_dec l0 level) as [->|Hl0].
      * exists l1. split; [congruence | rewrite H1; reflexivity].
      * exists l0. split; [exact Hl0|].
        assert (top <= s1) by (apply Hoth; congruence).
        pose proof (Hall l1) as Hs. rewrite H1 in Hs.
        rewrite H0. lra.
    + (* the second score bounds the other levels *)
      intros l Hl.
      destruct (rank_eq_dec l0 level) as [->|Hl0].
      * now apply Hoth.
      * assert (top <= s1) by (apply Hoth; congruence).
        specialize (Hge l). fold top in Hge. lra.
    + rewrite py_min_Qmin, py_max_Qmax, Hmax, Hsum, Etop. reflexivity.
Qed.

Lemma C4_decision_and_confidence_witness :
  _determine_level_with_confidence (full 0 0 0 0 0 0) = (Remembering, 0.5)
  /\ exists level conf top second,
      _determine_level_with_confidence (full 0.8 6.2 0 6.2 1 0)
      = (level, conf)
      /\ Board.value_of level (full 0.8 6.2 0 6.2 1 0) = top
      /\ (forall l, Board.value_of l (full 0.8 6.2 0 6.2 1 0) <= top)
      /\ (forall l, (rank l < rank level)%nat ->
                    Board.value_of l (full 0.8 6.2 0 6.2 1 0) < top)
      /\ (exists l2, l2 <> level
                     /\ Board.value_of l2 (full 0.8 6.2 0 6.2 1 0) == second)
      /\ (forall l, l <> level ->
                    Board.value_of l (full 0.8 6.2 0 6.2 1 0) <= second)
      /\ conf == Qmin (top / (0.8 + 6.2 + 0 + 6.2 + 1 + 0)
                        + ((top - second) / Qmax 1 top) * 0.3) 0.95.
Proof.
  split.
  - apply (proj1 (C4_decision_and_confidence 0 0 0 0 0 0)). reflexivity.
  - apply (proj2 (C4_decision_and_confidence 0.8 6.2 0 6.2 1 0)).
    vm_compute. discriminate.
Defined.

(** C5. Whatever the document, the question and the target level, the
    confidence of the result lies in [0.1, 0.95] when the call did not
    fail, and is 0.0 when it failed, that is when [actual_level] is
    "Error". *)
Theorem C5_confidence_range
    (document_text question_text : pyval) (selected : string) :
  let r := analyze_question_blooms_level document_text question_text selected in
  (actual_level r <> "Error" -> 0.1 <= confidence r <= 0.95)
  /\ (actual_level r = "Error" -> confidence r == 0.0).
Proof.
  intros r. subst r. unfold analyze_question_blooms_level.
  destruct question_text as [|question].
  - rewrite analyze_body_none. cbn [actual_level confidence].
    split; [congruence | reflexivity].
  - destruct (analyze_body_str document_text question selected)
      as (r & -> & _ & Hl & _ & Hc).
    split.
    + intros _. rewrite Hc.
      match goal with |- _ <= round2 ?x <= _ =>
        pose proof (validate_range
                      (snd (_determine_level_with_confidence
                              (final_board document_text question)))
                      question
                      (fst (_determine_level_with_confidence
                              (final_board document_text question)))
                      document_text) as [V1 V2];
        pose proof (round2_ge 10 x) as R1;
        pose proof (round2_le 95 x) as R2
      end.
      rewrite !div_100 in R1, R2.
      change (inject_Z 10) with 10 in R1. change (inject_Z 95) with 95 in R2.
      assert (A1 := R1 ltac:(lra)). assert (A2 := R2 ltac:(lra)). lra.
    + rewrite Hl. intros H. now apply name_not_error in H.
Qed.

Lemma C5_confidence_range_witness :
  (let r := analyze_question_blooms_level PyNone
              (PyStr "What is the capital of France?") "Remembering" in
   actual_level r <> "Error" /\ 0.1 <= confidence r <= 0.95)
  /\ (let r := analyze_question_blooms_level PyNone PyNone "Remembering" in
      actual_level r = "Error" /\ confidence r == 0.0).
Proof.
  split.
  - assert (H : actual_level
                  (analyze_question_blooms_level PyNone
                     (PyStr "What is the capital of France?") "Remembering")
                <> "Error") by (vm_compute; discriminate).
    split; [exact H|].
    exact (proj1 (C5_confidence_range PyNone
                    (PyStr "What is the capital of France?") "Remembering") H).
  - split; [reflexivity|].
    exact (proj2 (C5_confidence_range PyNone PyNone "Remembering") eq_refl).
Defined.

(** C6. The entry point never raises: an exception of the [try] block,
    of text [msg], is turned into the result with [matches_level] false,
    confidence 0.0, [actual_level] "Error", explanation
    "Analysis failed: msg" and no scores; a block that returns hands its
    result over unchanged, and that result is never an "Error".  In the
    model the block raises exactly when the question is [None]. *)
Theorem C6_failure_semantics
    (document_text question_text : pyval) (selected : string) :
  match analyze_body document_text question_text selected with
  | Raise msg =>
      analyze_question_blooms_level document_text question_text selected
      = {| matches_level := false;
           confidence := 0.0;
           actual_level := "Error";
           explanation := ("Analysis failed: " ++ msg)%string;
           scores := [] |}
      /\ question_text = PyNone
  | Ok r =>
      analyze_question_blooms_level document_text question_text selected = r
      /\ actual_level r <> "Error"
      /\ exists question, question_text = PyStr question
  end.
Proof.
  unfold analyze_question_blooms_level.
  destruct question_text as [|question].
  - rewrite analyze_body_none. split; reflexivity.
  - destruct (analyze_body_str document_text question selected)
      as (r & -> & _ & Hl & _).
    split; [reflexivity|]. split.
    + rewrite Hl. apply name_not_error.
    + now exists question.
Qed.

(** C7, as the specification states it, fails: on the failure path the
    scores map has no entry at all. *)
Lemma C7_counterexample :
  let r := analyze_question_blooms_level PyNone PyNone "Remembering" in
  actual_level r = "Error" /\ List.length (scores r) <> 6%nat.
Proof. split; [reflexivity | discriminate]. Qed.

(** C7, amended. On every call that does not fail, the scores map has
    exactly six entries, one per level in the order of the enumeration,
    and every entry is at least 0, also after the subtraction of the
    first special case; on the failure path the map is empty. *)
Theorem C7_scores_shape
    (document_text question_text : pyval) (selected : string) :
  let r := analyze_question_blooms_level document_text question_text selected in
  (actual_level r <> "Error" ->
     map fst (scores r) = Level.all
     /\ Forall (fun kv => 0 <= snd kv) (scores r))
  /\ (actual_level r = "Error" -> scores r = []).
Proof.
  intros r. subst r. unfold analyze_question_blooms_level.
  destruct question_text as [|question].
  - rewrite analyze_body_none. cbn [actual_level scores].
    split; [congruence | reflexivity].
  - destruct (analyze_body_str document_text question selected)
      as (r & -> & Hs & Hl & _).
    split.
    + intros _. rewrite Hs. split; [reflexivity|].
      unfold final_board, full. cbn [map snd].
      repeat constructor; cbn [snd];
        apply round2_nonneg, final_score_nonneg.
    + rewrite Hl. intros H. now apply name_not_error in H.
Qed.

Lemma C7_scores_shape_witness :
  (let r := analyze_question_blooms_level PyNone
              (PyStr "What did Newton discover?") "Remembering" in
   map fst (scores r) = Level.all
   /\ Forall (fun kv => 0 <= snd kv) (scores r))
  /\ (let r := analyze_question_blooms_level PyNone PyNone "Remembering" in
      scores r = []).
Proof.
  split.
  - apply (proj1 (C7_scores_shape PyNone
                    (PyStr "What did Newton discover?") "Remembering")).
    vm_compute. discriminate.
  - apply (proj2 (C7_scores_shape PyNone PyNone "Remembering")).
    reflexivity.
Defined.

(** C8. For every question whose lowercased text begins with
    "what did" or "what happened", the special cases add exactly 2.5 to
    the score of Remembering and replace the score [s] of every other
    level by [max(s - 1.5, 0)]: the subtraction is floored at 0. *)
Theorem C8_what_did_rule (question : string) (a b c d e f : Q) :
  startswith "what did" (lower question) = true
  \/ startswith "what happened" (lower question) = true ->
  exists a' b' c' d' e' f',
    _handle_special_cases question (full a b c d e f)
    = Ok (full a' b' c' d' e' f')
    /\ a' == a + 2.5
    /\ b' == Qmax (b - 1.5) 0
    /\ c' == Qmax (c - 1.5) 0
    /\ d' == Qmax (d - 1.5) 0
    /\ e' == Qmax (e - 1.5) 0
    /\ f' == Qmax (f - 1.5) 0.
Proof.
  intros H. rewrite handle_full.
  rewrite !(adjust_what_rule question _ _ H).
  do 6 eexists. split; [reflexivity|].
  repeat apply conj; try apply py_max_Qmax. reflexivity.
Qed.

Lemma C8_what_did_rule_witness :
  exists a' b' c' d' e' f',
    _handle_special_cases "What did Newton discover?" (full 1 2 0.5 1.5 3 0)
    = Ok (full a' b' c' d' e' f')
    /\ a' == 1 + 2.5
    /\ b' == Qmax (2 - 1.5) 0
    /\ c' == Qmax (0.5 - 1.5) 0
    /\ d' == Qmax (1.5 - 1.5) 0
    /\ e' == Qmax (3 - 1.5) 0
    /\ f' == Qmax (0 - 1.5) 0.
Proof.
  apply (C8_what_did_rule "What did Newton discover?" 1 2 0.5 1.5 3 0).
  left. reflexivity.
Defined.

(** C9. On every call that does not fail, [matches_level] is true
    exactly when [actual_level] is the target level the caller gave; on
    the failure path it is false. *)
Theorem C9_matches_level
    (document_text question_text : pyval) (selected : string) :
  let r := analyze_question_blooms_level document_text question_text selected in
  (actual_level r <> "Error" ->
     (matches_level r = true <-> actual_level r = selected))
  /\ (actual_level r = "Error" -> matches_level r = false).
Proof.
  intros r. subst r. unfold analyze_question_blooms_level.
  destruct question_text as [|question].
  - rewrite analyze_body_none. cbn [actual_level matches_level].
    split; [congruence | reflexivity].
  - destruct (analyze_body_str document_text question selected)
      as (r & -> & _ & Hl & Hm & _).
    split.
    + intros _. rewrite Hm. apply String.eqb_eq.
    + rewrite Hl. intros H. now apply name_not_error in H.
Qed.

Lemma C9_matches_level_witness :
  (let r := analyze_question_blooms_level PyNone
              (PyStr "What is the capital of France?") "Creating" in
   matches_level r = true <-> actual_level r = "Creating")
  /\ (let r := analyze_question_blooms_level PyNone PyNone "Error" in
      matches_level r = false).
Proof.
  split.
  - apply (proj1 (C9_matches_level PyNone
                    (PyStr "What is the capital of France?") "Creating")).
    vm_compute. discriminate.
  - apply (proj2 (C9_matches_level PyNone PyNone "Error")).
    reflexivity.
Defined.

(** C10. The structural markers are found as substrings of the
    lowercased question, not as words: whenever a listed marker occurs
    anywhere in it, also in the middle of a longer word, the
    corresponding test succeeds and its bonus is part of the structural
    complexity (0.4 instead of 0.1 for a subordinating conjunction, 0.2
    for a coordinating word, 0.2 for a modal). *)
Theorem C10_markers_are_substrings (question marker pre post : string) :
  lower question = (pre ++ marker ++ post)%string ->
  (In marker subordinators ->
     has_subordination question = true
     /\ structural_complexity question
        == 0.4 + (if has_coordination question then 0.2 else 0.0)
               + (if has_conditionals question then 0.2 else 0.0))
  /\ (In marker coordinators ->
       has_coordination question = true
       /\ structural_complexity question
          == (if has_subordination question then 0.4 else 0.1) + 0.2
             + (if has_conditionals question then 0.2 else 0.0))
  /\ (In marker conditionals ->
       has_conditionals question = true
       /\ structural_complexity question
          == (if has_subordination question then 0.4 else 0.1)
             + (if has_coordination question then 0.2 else 0.0) + 0.2).
Proof.
  intros E.
  assert (C : contains marker (lower question) = true)
    by (rewrite E; apply contains_app).
  unfold structural_complexity, has_subordination, has_coordination,
    has_conditionals.
  repeat apply conj; intros H;
    rewrite (any_in_intro _ marker _ H C); split; reflexivity.
Qed.

Lemma C10_markers_are_substrings_witness :
  (has_subordination "My wife" = true
   /\ structural_complexity "My wife" == 0.4)
  /\ (has_coordination "A sandwich" = true
      /\ structural_complexity "A sandwich" == 0.1 + 0.2)
  /\ (has_coordination "Before noon" = true
      /\ structural_complexity "Before noon" == 0.1 + 0.2)
  /\ (has_conditionals "Shoulder" = true
      /\ structural_complexity "Shoulder" == 0.1 + 0.2).
Proof.
  repeat apply conj.
  - apply (proj1 (C10_markers_are_substrings "My wife" "if" "my w" "e" eq_refl)).
    simpl; tauto.
  - reflexivity.
  - apply (proj1 (proj2 (C10_markers_are_substrings
                           "A sandwich" "and" "a s" "wich" eq_refl))).
    simpl; tauto.
  - reflexivity.
  - apply (proj1 (proj2 (C10_markers_are_substrings
                           "Before noon" "or" "bef" "e noon" eq_refl))).
    simpl; tauto.
  - reflexivity.
  - apply (proj2 (proj2 (C10_markers_are_substrings
                           "Shoulder" "should" "" "er" eq_refl))).
    simpl; tauto.
  - reflexivity.
Defined.

End Claims.

(* ===================================================================== *)
(** * Further facts about the classifier *)
(* ===================================================================== *)

Module MoreFacts.
Import PyStr PyNum PyStrFacts PyNumFacts RegexFacts Spec Blooms BloomsFacts.

(** ** The three special cases *)

Lemma matches_chr_inv c s : Regex.matches (Regex.Chr c) s -> s = String c "".
Proof. intros H. now inversion H. Qed.

Ltac invert_matches :=
  repeat match goal with
         | H : Regex.matches (Regex.Cat _ _) _ |- _ =>
             apply matches_cat_inv in H as (? & ? & -> & ? & ?)
         | H : Regex.matches (Regex.Alt _ _) _ |- _ =>
             apply matches_alt_inv in H as [?|?]
         | H : Regex.matches (Regex.Chr _) _ |- _ =>
             apply matches_chr_inv in H; subst
         end.

(** The pattern of the first special case is found exactly in the
    strings that start with "what did" or "what happened". *)
Lemma what_rule_iff (ql : string) :
  Regex.search "^what (did|happened)" ql = true
  <-> startswith "what did" ql = true \/ startswith "what happened" ql = true.
Proof.
  split; [|apply what_rule_only].
  unfold Regex.search.
  set (cp := Regex.compile "^what (did|happened)").
  vm_compute in cp. subst cp. unfold Regex.run; cbn [fst snd].
  intros H. apply match_here_spec in H as (m & post & -> & H).
  invert_matches; cbn [String.append]; [left | right];
    cbn [startswith]; rewrite !Ascii.eqb_refl; reflexivity.
Qed.

Lemma what_prefix_h (ql : string) :
  startswith "what did" ql = true \/ startswith "what happened" ql = true ->
  startswith "wha" ql = true.
Proof.
  intros [H|H]; apply startswith_inv in H as [post ->]; reflexivity.
Qed.

Lemma startswith_head (c : ascii) (p s : string) :
  startswith (String c p) s = true -> exists s', s = String c s'.
Proof.
  destruct s as [|b s]; simpl; [discriminate|].
  intros H. apply andb_true_iff in H as [H _].
  apply Ascii.eqb_eq in H. subst. now exists s.
Qed.

Lemma how_not_what (ql : string) :
  startswith "how " ql = true ->
  Regex.search "^what (did|happened)" ql = false
  /\ startswith "why " ql = false.
Proof.
  intros H. apply startswith_head in H as [s' ->]. split; [|reflexivity].
  destruct (Regex.search _ _) eqn:E; [|reflexivity].
  apply what_rule_iff, what_prefix_h in E. discriminate.
Qed.

Lemma why_not_what (ql : string) :
  startswith "why " ql = true ->
  Regex.search "^what (did|happened)" ql = false
  /\ startswith "how " ql = false.
Proof.
  intros H. apply startswith_inv in H as [post ->]. split; [|reflexivity].
  destruct (Regex.search _ _) eqn:E; [|reflexivity].
  apply what_rule_iff, what_prefix_h in E. discriminate.
Qed.

(** ** Letter case *)

Lemma is_space_lower_char (c : ascii) : is_space (lower_char c) = is_space c.
Proof. destruct c as [[] [] [] [] [] [] [] []]; reflexivity. Qed.

Lemma question_mark_lower_char (c : ascii) :
  Ascii.eqb "?" (lower_char c) = Ascii.eqb "?" c.
Proof. destruct c as [[] [] [] [] [] [] [] []]; reflexivity. Qed.

Lemma has_question_mark_lower (s : string) :
  has_char "?" (lower s) = has_char "?" s.
Proof.
  induction s as [|c s IH]; cbn [has_char lower]; [reflexivity|].
  now rewrite question_mark_lower_char, IH.
Qed.

Lemma flush_length (cur : string) :
  List.length (flush cur) = match cur with EmptyString => 0%nat | _ => 1%nat end.
Proof. destruct cur; reflexivity. Qed.

Lemma split_go_lower_length (s cur cur' : string) :
  (cur = "" <-> cur' = "") ->
  List.length (split_go cur s) = List.length (split_go cur' (lower s)).
Proof.
  revert cur cur'.
  induction s as [|c s IH]; intros cur cur' E; cbn [split_go lower].
  - rewrite !flush_length. destruct cur, cur'; try reflexivity;
      destruct E as [E1 E2]; try (now discriminate E1); now discriminate E2.
  - rewrite is_space_lower_char. destruct (is_space c).
    + rewrite !length_app, !flush_length, (IH "" "") by tauto.
      destruct cur, cur'; try reflexivity;
        destruct E as [E1 E2]; try (now discriminate E1); now discriminate E2.
    + apply IH. split; discriminate.
Qed.

Lemma word_count_lower (s : string) :
  List.length (split s) = List.length (split (lower s)).
Proof. apply split_go_lower_length. tauto. Qed.

Section SameLetters.
Variables q1 q2 : string.
Hypothesis E : lower q1 = lower q2.

Lemma word_count_same : List.length (split q1) = List.length (split q2).
Proof. now rewrite (word_count_lower q1), (word_count_lower q2), E. Qed.

Lemma question_mark_same : has_char "?" q1 = has_char "?" q2.
Proof.
  now rewrite <- (has_question_mark_lower q1), <- (has_question_mark_lower q2), E.
Qed.

Lemma total_complexity_same : total_complexity q1 = total_complexity q2.
Proof.
  unfold total_complexity, structural_complexity, has_subordination,
    has_coordination, has_conditionals.
  now rewrite word_count_same, E.
Qed.

Lemma raw_score_same level :
  raw_score PyNone q1 level = raw_score PyNone q2 level.
Proof.
  unfold raw_score, level_score, question_clean, question_lower,
    _analyze_question_complexity.
  cbn [truthy]. now rewrite total_complexity_same, E.
Qed.

Lemma final_board_same : final_board PyNone q1 = final_board PyNone q2.
Proof.
  unfold final_board, final_score, adjust.
  now rewrite !raw_score_same, E.
Qed.

Lemma validate_same c level :
  _validate_classification c q1 level PyNone
  = _validate_classification c q2 level PyNone.
Proof.
  unfold _validate_classification.
  now rewrite word_count_same, question_mark_same.
Qed.

Lemma explanation_same level selected m sb c :
  _generate_detailed_explanation q1 level selected m sb PyNone c
  = _generate_detailed_explanation q2 level selected m sb PyNone c.
Proof.
  unfold _generate_detailed_explanation, _get_classification_reasoning.
  now rewrite word_count_same, question_mark_same, E.
Qed.

End SameLetters.

(** ** The complexity signal *)

Lemma div_2 (x : Q) : x / 2 == x * (1 # 2).
Proof. reflexivity. Qed.

Lemma div_10 (x : Q) : x / 10 == x * (1 # 10).
Proof. reflexivity. Qed.

Lemma of_nat_le (k n : nat) : of_nat k <= of_nat n <-> (k <= n)%nat.
Proof. unfold of_nat. rewrite <- Zle_Qle. symmetry. apply Nat2Z.inj_le. Qed.

Lemma of_nat_nonneg (n : nat) : 0 <= of_nat n.
Proof. apply (of_nat_le 0 n). lia. Qed.

Lemma structural_complexity_cases (question_text : string) :
  let sc := structural_complexity question_text in
  0.1 <= sc <= 0.8
  /\ (0.8 <= sc <->
      has_subordination question_text = true
      /\ has_coordination question_text = true
      /\ has_conditionals question_text = true).
Proof.
  unfold structural_complexity.
  destruct (has_subordination _), (has_coordination _), (has_conditionals _);
    (split; [lra|]); split; try tauto; try (intros H; exfalso; lra);
    try (intros (? & ? & ?); discriminate).
Qed.

Lemma sentence_complexity_cases (n : nat) :
  let sentence := py_min (of_nat n / 10) 1.0 in
  0 <= sentence <= 1
  /\ (1 <= sentence <-> (10 <= n)%nat)
  /\ ((3 <= n)%nat -> 0.3 <= sentence).
Proof.
  cbv zeta. pose proof (of_nat_nonneg n) as P.
  pose proof (of_nat_le 10 n) as T. pose proof (of_nat_le 3 n) as T3.
  change (of_nat 10) with 10 in T. change (of_nat 3) with 3 in T3.
  destruct (py_min_case (of_nat n / 10) 1.0) as [[H ->]|[H ->]];
    rewrite div_10 in H; try rewrite div_10.
  - split; [lra|]. split.
    + split; intros _; [apply T|]; lra.
    + intros _. lra.
  - split; [lra|]. split.
    + split; intros H1; [apply T | apply T in H1]; lra.
    + intros H3. apply T3 in H3. lra.
Qed.

Lemma total_complexity_three_words (question_text : string) :
  (3 <= List.length (split question_text))%nat ->
  0.2 <= total_complexity question_text.
Proof.
  intros H3. unfold total_complexity. rewrite div_2.
  destruct (structural_complexity_cases question_text) as [S _].
  destruct (sentence_complexity_cases (List.length (split question_text)))
    as (_ & _ & N).
  cbv zeta in S, N. specialize (N H3). lra.
Qed.

(** ** Lower bounds on scores *)

Lemma signals_nonneg {A B : Type} (pk : A -> bool) (pp : B -> bool)
    (kws : list A) (pats : list B) (hit : bool) (w : Q) :
  0 <= w ->
  0 <= (if hit
        then fold_left (fun score x => if pp x then score + 2.0 * w else score)
               pats
               (fold_left (fun score x => if pk x then score + 1.5 * w else score)
                  kws 0) + 1.0 * w
        else fold_left (fun score x => if pp x then score + 2.0 * w else score)
               pats
               (fold_left (fun score x => if pk x then score + 1.5 * w else score)
                  kws 0)).
Proof.
  intros Hw.
  assert (F : 0 <= fold_left
                     (fun score x => if pp x then score + 2.0 * w else score)
                     pats
                     (fold_left
                        (fun score x => if pk x then score + 1.5 * w else score)
                        kws 0)).
  { eapply Qle_trans; [|apply fold_cond_add_ge; lra].
    apply fold_cond_add_ge. lra. }
  destruct hit; lra.
Qed.

Lemma doc_context_nonneg question document level :
  0 <= _analyze_document_context question document level.
Proof.
  unfold _analyze_document_context.
  repeat match goal with
         | |- context [if ?b then _ else _] => destruct b
         end; lra.
Qed.

Lemma raw_score_remembering_ge (document_text : pyval) (question : string) :
  (3 <= List.length (split question))%nat ->
  0.8 <= raw_score document_text question Remembering.
Proof.
  intros H3. unfold raw_score, level_score.
  eapply Qle_trans; [|apply py_max_ge_l].
  unfold _analyze_question_complexity.
  change (complexity_threshold (profile Remembering)) with 0.2.
  pose proof (total_complexity_three_words question H3) as T.
  apply Qle_bool_iff in T. rewrite T.
  pose proof (weight_pos Remembering) as W.
  match goal with
  | |- _ <= (if truthy _ then ?S + ?D else ?S) + _ =>
      assert (HS : 0 <= S) by (apply signals_nonneg; lra);
      assert (HD : 0 <= D)
  end.
  { cbn [Level.mem existsb Level.eqb orb]. apply doc_context_nonneg. }
  destruct (truthy document_text); lra.
Qed.

Lemma adjust_remembering_ge (question : string) (v : Q) :
  v <= adjust question Remembering v.
Proof.
  unfold adjust, adjust_why, adjust_how, adjust_what.
  repeat match goal with
         | |- context [if ?b then _ else _] => destruct b
         end; lra.
Qed.

(** ** Bounds on the confidence *)

(** The decision on a full board whose sum is not 0. *)
Lemma determine_nonzero (a b c d e f : Q) :
  ~ a + b + c + d + e + f == 0 ->
  exists level top s0 s1,
    _determine_level_with_confidence (full a b c d e f)
    = (level,
       py_min (top / py_sum (Board.values (full a b c d e f))
               + (s0 - s1) / py_max 1 s0 * 0.3) 0.95)
    /\ Board.value_of level (full a b c d e f) = top
    /\ (forall l, Board.value_of l (full a b c d e f) <= top)
    /\ s1 <= s0.
Proof.
  intros Hn. set (sb := full a b c d e f).
  pose proof (py_sum_full a b c d e f) as Hsum. fold sb in Hsum.
  assert (E : Qeq_bool (py_sum (Board.values sb)) 0 = false).
  { destruct (Qeq_bool _ _) eqn:E; [|reflexivity].
    apply Qeq_bool_iff in E. rewrite Hsum in E. contradiction. }
  destruct (sorted_top2_full a b c d e f)
    as (s0 & s1 & rest & l0 & l1 & Hsort & _ & H0 & H1 & Hall & _).
  destruct (argmax_full a b c d e f) as (Hmax & Hge & _).
  fold sb in Hsort, H0, H1, Hall, Hmax, Hge.
  exists (max_key (Remembering, a)
            [(Understanding, b); (Applying, c); (Analyzing, d);
             (Evaluating, e); (Creating, f)]),
    (max_value a [b; c; d; e; f]), s0, s1.
  split; [|split; [now symmetry|split]].
  - unfold _determine_level_with_confidence, sb, full.
    fold (full a b c d e f). fold sb.
    rewrite E. cbn [snd Board.values map].
    change (map snd
              [(Understanding, b); (Applying, c); (Analyzing, d);
               (Evaluating, e); (Creating, f)]) with [b; c; d; e; f].
    change (a :: [b; c; d; e; f]) with (Board.values sb).
    rewrite Hsort. reflexivity.
  - intros l. rewrite Hmax. apply Hge.
  - rewrite <- H1. apply Hall.
Qed.

(** On a board without negative score, the confidence of the decision
    is at least 1/6 and at most 0.95. *)
Lemma determine_confidence_range (a b c d e f : Q) :
  0 <= a -> 0 <= b -> 0 <= c -> 0 <= d -> 0 <= e -> 0 <= f ->
  (1 # 6) <= snd (_determine_level_with_confidence (full a b c d e f)) <= 0.95.
Proof.
  intros Ha Hb Hc Hd He Hf.
  destruct (Qeq_dec (a + b + c + d + e + f) 0) as [Z|N].
  - pose proof (py_sum_full a b c d e f) as Hsum.
    unfold _determine_level_with_confidence, full.
    fold (full a b c d e f).
    assert (E : Qeq_bool (py_sum (Board.values (full a b c d e f))) 0 = true)
      by (apply Qeq_bool_iff; rewrite Hsum; exact Z).
    rewrite E. cbn [snd]. lra.
  - destruct (determine_nonzero a b c d e f N)
      as (level & top & s0 & s1 & -> & Ht & Hge & Hs).
    cbn [snd]. pose proof (py_sum_full a b c d e f) as Hsum.
    set (total := py_sum (Board.values (full a b c d e f))) in *.
    pose proof (Hge Remembering) as G1. pose proof (Hge Understanding) as G2.
    pose proof (Hge Applying) as G3. pose proof (Hge Analyzing) as G4.
    pose proof (Hge Evaluating) as G5. pose proof (Hge Creating) as G6.
    cbn in G1, G2, G3, G4, G5, G6.
    assert (T : 0 < total) by lra.
    assert (B : (1 # 6) <= top / total)
      by (apply Qle_shift_div_l; [exact T | lra]).
    assert (P : 0 < py_max 1 s0)
      by (pose proof (py_max_ge_l 1 s0); lra).
    assert (G : 0 <= (s0 - s1) / py_max 1 s0)
      by (apply Qle_shift_div_l; [exact P | lra]).
    split.
    + destruct (py_min_case
                  (top / total + (s0 - s1) / py_max 1 s0 * 0.3) 0.95)
        as [[? ->]|[? ->]]; lra.
    + apply py_min_le_r.
Qed.

Lemma validate_lower_bound c question detected document_text :
  (1 # 6) <= c ->
  (7 # 60) <= _validate_classification c question detected document_text.
Proof.
  intros Hc. unfold _validate_classification.
  set (v1 := if (_ <? 4)%nat then c * 0.7 else c).
  assert (H1 : (7 # 60) <= v1) by (subst v1; destruct (_ <? 4)%nat; lra).
  clearbody v1.
  set (v2 := if (15 <? _)%nat then py_min (v1 * 1.1) 0.95 else v1).
  assert (H2 : (7 # 60) <= v2).
  { subst v2. destruct (15 <? _)%nat; [|exact H1].
    destruct (py_min_case (v1 * 1.1) 0.95) as [[? ->]|[? ->]]; lra. }
  clearbody v2.
  set (v3 := if has_char "?" question then py_min (v2 * 1.05) 0.95 else v2).
  assert (H3 : (7 # 60) <= v3).
  { subst v3. destruct (has_char _ _); [|exact H2].
    destruct (py_min_case (v2 * 1.05) 0.95) as [[? ->]|[? ->]]; lra. }
  clearbody v3.
  set (v4 := if (negb _ && _)%bool then py_min (v3 * 1.1) 0.95 else v3).
  assert (H4 : (7 # 60) <= v4).
  { subst v4. destruct (negb _ && _)%bool; [|exact H3].
    destruct (py_min_case (v3 * 1.1) 0.95) as [[? ->]|[? ->]]; lra. }
  clearbody v4.
  set (v5 := if (truthy _ && _)%bool then py_min (v4 * 1.05) 0.95 else v4).
  assert (H5 : (7 # 60) <= v5).
  { subst v5. destruct (truthy _ && _)%bool; [|exact H4].
    destruct (py_min_case (v4 * 1.05) 0.95) as [[? ->]|[? ->]]; lra. }
  clearbody v5.
  destruct (py_min_case v5 0.95) as [[? ->]|[? ->]];
    match goal with |- _ <= py_max ?x ?y =>
      destruct (py_max_case x y) as [[? ->]|[? ->]] end; lra.
Qed.

(** [round(x, 2)] reaches a hundredth as soon as [x] is past the middle
    of the interval below it. *)
Lemma round2_gt (n : Z) (x : Q) :
  (inject_Z n - (1 # 2)) / 100 < x -> inject_Z n / 100 <= round2 x.
Proof.
  unfold round2. rewrite !div_100. intros H.
  pose proof (round_half_even_near (x * 100)) as [L _].
  assert (R : (n - 1 < round_half_even (x * 100))%Z).
  { rewrite Zlt_Qlt. replace (n - 1)%Z with (n + -1)%Z by lia.
    rewrite inject_Z_plus. change (inject_Z (-1)) with (-1). lra. }
  assert (R' : (n <= round_half_even (x * 100))%Z) by lia.
  rewrite Zle_Qle in R'. lra.
Qed.

(** ** Keywords are matched as words *)

Lemma lit_then_b_spec (kw : string) :
  forall prev s,
    Regex.lit_then_b prev kw s = true
    <-> exists post,
          s = (kw ++ post)%string
          /\ Regex.boundary (PyMore.last_or prev kw) (Regex.head post) = true.
Proof.
  induction kw as [|a kw IH]; intros prev s; cbn [Regex.lit_then_b PyMore.last_or].
  - split.
    + intros H. now exists s.
    + intros (post & -> & H). exact H.
  - destruct s as [|b s].
    + split; [discriminate | intros (post & E & _); discriminate].
    + rewrite andb_true_iff, IH. split.
      * intros (Hab & post & -> & H). apply Ascii.eqb_eq in Hab. subst b.
        now exists post.
      * intros (post & E & H). injection E as -> ->.
        split; [apply Ascii.eqb_refl | now exists post].
Qed.

Lemma last_or_nonempty (s : string) (prev : option ascii) :
  s <> "" -> PyMore.last_or prev s = PyMore.last_char s.
Proof. destruct s; [congruence | reflexivity]. Qed.

Lemma head_app_nonempty (s post : string) :
  s <> "" -> Regex.head (s ++ post) = Regex.head s.
Proof. destruct s; [congruence | reflexivity]. Qed.

Section WholeWord.
Variable kw : string.
Hypothesis first_word : Regex.word_opt (Regex.head kw) = true.
Hypothesis last_word : Regex.word_opt (PyMore.last_char kw) = true.

Lemma kw_not_empty : kw <> "".
Proof.
  pose proof first_word as F. intros E. rewrite E in F. discriminate.
Qed.

Lemma last_or_kw (prev : option ascii) :
  Regex.word_opt (PyMore.last_or prev kw) = true.
Proof. rewrite (last_or_nonempty kw prev kw_not_empty). exact last_word. Qed.

Lemma head_app_kw (post : string) :
  Regex.word_opt (Regex.head (kw ++ post)) = true.
Proof. rewrite (head_app_nonempty kw post kw_not_empty). exact first_word. Qed.

(** A match at the start of [s]. *)
Lemma match_at_start (prev : option ascii) (s : string) :
  (Regex.boundary prev (Regex.head s) && Regex.lit_then_b prev kw s)%bool = true
  <-> Regex.word_opt prev = false
      /\ exists post, s = (kw ++ post)%string
                      /\ Regex.word_opt (Regex.head post) = false.
Proof.
  rewrite andb_true_iff, lit_then_b_spec. unfold Regex.boundary. split.
  - intros (B & post & -> & H).
    rewrite head_app_kw in B. rewrite last_or_kw in H.
    split; [now destruct (Regex.word_opt prev)|].
    exists post. split; [reflexivity|].
    now destruct (Regex.word_opt (Regex.head post)).
  - intros (P & post & -> & H). rewrite head_app_kw, P. split; [reflexivity|].
    exists post. split; [reflexivity|]. now rewrite last_or_kw, H.
Qed.

Lemma search_word_go_spec (s : string) :
  forall prev,
    Regex.search_word_go prev kw s = true
    <-> exists pre post,
          s = (pre ++ kw ++ post)%string
          /\ Regex.word_opt (PyMore.last_or prev pre) = false
          /\ Regex.word_opt (Regex.head post) = false.
Proof.
  induction s as [|c s IH]; intros prev; cbn [Regex.search_word_go];
    rewrite orb_true_iff, match_at_start.
  - split.
    + intros [(P & post & E & H)|H]; [|discriminate].
      exists "", post. auto.
    + intros (pre & post & E & P & H). left.
      destruct pre as [|b pre]; [|discriminate].
      split; [exact P | now exists post].
  - rewrite IH. split.
    + intros [(P & post & E & H)|(pre & post & E & P & H)].
      * exists "", post. auto.
      * exists (String c pre), post. rewrite E. auto.
    + intros (pre & post & E & P & H).
      destruct pre as [|b pre].
      * left. split; [exact P | now exists post].
      * right. injection E as -> ->. exists pre, post. auto.
Qed.

End WholeWord.

Lemma registry_keywords_are_words :
  forallb (fun kw => (Regex.word_opt (Regex.head kw)
                      && Regex.word_opt (PyMore.last_char kw))%bool)
          (flat_map (fun row => keywords (snd row)) Registry.blooms_processes)
  = true.
Proof. vm_compute. reflexivity. Qed.

Lemma profile_keyword_in_registry level kw :
  In kw (keywords (profile level)) ->
  In kw (flat_map (fun row => keywords (snd row)) Registry.blooms_processes).
Proof.
  intros H. apply in_flat_map.
  exists (level, profile level). split; [|exact H].
  destruct level; cbn; tauto.
Qed.

(** The result for a question that is a string, explanation included. *)
Lemma analyze_body_eq (document_text : pyval) (question selected : string) :
  analyze_body document_text (PyStr question) selected
  = Ok (let level_scores := final_board document_text question in
        let '(detected_level, confidence) :=
          _determine_level_with_confidence level_scores in
        let confidence :=
          _validate_classification confidence question detected_level
            document_text in
        let matches := String.eqb (Level.name detected_level) selected in
        {| matches_level := matches;
           confidence := round2 confidence;
           actual_level := Level.name detected_level;
           explanation :=
             _generate_detailed_explanation question detected_level selected
               matches level_scores document_text confidence;
           scores := map (fun '(k, v) => (k, round2 v)) level_scores |}).
Proof.
  unfold analyze_body.
  change (map _ Registry.blooms_processes)
    with (map (fun '(level, data) =>
                 (level,
                  level_score document_text question (question_lower question)
                    (question_clean question) (document_lower document_text)
                    level data))
              Registry.blooms_processes).
  rewrite raw_scores_full, handle_full. cbn [bind].
  fold (final_score document_text question Remembering).
  fold (final_score document_text question Understanding).
  fold (final_score document_text question Applying).
  fold (final_score document_text question Analyzing).
  fold (final_score document_text question Evaluating).
  fold (final_score document_text question Creating).
  fold (final_board document_text question).
  cbv zeta.
  destruct (_determine_level_with_confidence _) as [detected conf].
  reflexivity.
Qed.

(** The fields of the result for a question that is a string. *)
Lemma analyze_str_facts (document_text : pyval) (question selected : string) :
  let r :=
    analyze_question_blooms_level document_text (PyStr question) selected in
  (exists l, actual_level r = Level.name l)
  /\ 0.12 <= confidence r <= 0.95
  /\ map fst (scores r) = Level.all
  /\ matches_level r = String.eqb (actual_level r) selected.
Proof.
  cbv zeta. unfold analyze_question_blooms_level.
  destruct (analyze_body_str document_text question selected)
    as (r & -> & Hs & Hl & Hm & Hc).
  split; [eexists; exact Hl|]. split; [|split; [now rewrite Hs | exact Hm]].
  rewrite Hc.
  pose proof (determine_confidence_range _ _ _ _ _ _
                (final_score_nonneg document_text question Remembering)
                (final_score_nonneg document_text question Understanding)
                (final_score_nonneg document_text question Applying)
                (final_score_nonneg document_text question Analyzing)
                (final_score_nonneg document_text question Evaluating)
                (final_score_nonneg document_text question Creating))
    as [D _].
  fold (final_board document_text question) in D.
  pose proof (validate_lower_bound _ question
                (fst (_determine_level_with_confidence
                        (final_board document_text question)))
                document_text D) as V.
  pose proof (validate_range
                (snd (_determine_level_with_confidence
                        (final_board document_text question)))
                question
                (fst (_determine_level_with_confidence
                        (final_board document_text question)))
                document_text) as [_ U].
  match goal with |- _ <= round2 ?x <= _ =>
    assert (A : inject_Z 12 / 100 <= round2 x)
      by (apply round2_gt; rewrite div_100;
          change (inject_Z 12) with 12; lra);
    assert (A' : round2 x <= inject_Z 95 / 100)
      by (apply round2_le; rewrite div_100;
          change (inject_Z 95) with 95; lra)
  end.
  rewrite div_100 in A, A'.
  change (inject_Z 12) with 12 in A. change (inject_Z 95) with 95 in A'.
  lra.
Qed.

End MoreFacts.

(* ===================================================================== *)
(** * Facts about the code around the classifier *)
(* ===================================================================== *)

Module CodeFacts.
Import PyStr PyNum PyMore PyStrFacts Validation FileUtils Routes Blooms.
Import MoreFacts.

(** ** [rsplit('.', 1)] *)

Lemma rsplit_last_none (sep : ascii) (s : string) :
  rsplit_last sep s = None <-> has_char sep s = false.
Proof.
  induction s as [|c s IH]; cbn [rsplit_last has_char]; [tauto|].
  rewrite (Ascii.eqb_sym sep c).
  destruct (rsplit_last sep s) as [[before after]|].
  - split; [discriminate|]. intros H.
    apply Bool.orb_false_iff in H as [_ H]. apply IH in H. discriminate.
  - assert (E : has_char sep s = false) by (apply IH; reflexivity).
    rewrite E, Bool.orb_false_r.
    destruct (Ascii.eqb c sep); split; congruence.
Qed.

Lemma rsplit_last_some (sep : ascii) (s before after : string) :
  rsplit_last sep s = Some (before, after)
  <-> s = (before ++ String sep after)%string /\ has_char sep after = false.
Proof.
  split.
  - revert before. induction s as [|c s IH]; intros before H;
      cbn [rsplit_last] in H; [discriminate|].
    destruct (rsplit_last sep s) as [[b a]|] eqn:E.
    + injection H as <- <-. destruct (IH b eq_refl) as [-> Ha].
      split; [reflexivity | exact Ha].
    + destruct (Ascii.eqb c sep) eqn:C; [|discriminate].
      injection H as <- <-. apply Ascii.eqb_eq in C. subst c.
      split; [reflexivity | now apply rsplit_last_none].
  - intros [-> Ha]. induction before as [|c before IH].
    + cbn [String.append rsplit_last].
      apply rsplit_last_none in Ha. rewrite Ha, Ascii.eqb_refl. reflexivity.
    + cbn [String.append rsplit_last]. rewrite IH. reflexivity.
Qed.

(** The extension of a name with a dot. *)
Lemma extension_of (base ext : string) :
  has_char "." ext = false ->
  index (rsplit1 "." (base ++ "." ++ ext)) 1 = Ok ext
  /\ has_char "." (base ++ "." ++ ext) = true.
Proof.
  intros H. split.
  - unfold rsplit1.
    assert (E : rsplit_last "." (base ++ "." ++ ext) = Some (base, ext))
      by (apply rsplit_last_some; split; [reflexivity | exact H]).
    rewrite E. reflexivity.
  - destruct (has_char "." (base ++ "." ++ ext)) eqn:E; [reflexivity|].
    apply rsplit_last_none in E.
    assert (E' : rsplit_last "." (base ++ "." ++ ext) = Some (base, ext))
      by (apply rsplit_last_some; split; [reflexivity | exact H]).
    congruence.
Qed.

Lemma extension_spec (s : string) :
  has_char "." s = true ->
  exists base ext,
    s = (base ++ "." ++ ext)%string
    /\ has_char "." ext = false
    /\ index (rsplit1 "." s) 1 = Ok ext.
Proof.
  intros H. unfold rsplit1.
  destruct (rsplit_last "." s) as [[base ext]|] eqn:E.
  - apply rsplit_last_some in E as [-> Ha].
    exists base, ext. repeat split; assumption.
  - apply rsplit_last_none in E. congruence.
Qed.

Lemma extension_none (s : string) :
  has_char "." s = false ->
  index (rsplit1 "." s) 1 = Raise "list index out of range".
Proof.
  intros H. unfold rsplit1. apply rsplit_last_none in H. rewrite H.
  reflexivity.
Qed.

(** Two ways of writing a name as base, dot and extension agree. *)
Lemma extension_unique (base1 ext1 base2 ext2 : string) :
  (base1 ++ "." ++ ext1)%string = (base2 ++ "." ++ ext2)%string ->
  has_char "." ext1 = false -> has_char "." ext2 = false ->
  base1 = base2 /\ ext1 = ext2.
Proof.
  intros E H1 H2.
  assert (A : rsplit_last "." (base1 ++ "." ++ ext1) = Some (base1, ext1))
    by (apply rsplit_last_some; split; [reflexivity | exact H1]).
  assert (B : rsplit_last "." (base2 ++ "." ++ ext2) = Some (base2, ext2))
    by (apply rsplit_last_some; split; [reflexivity | exact H2]).
  rewrite E in A. rewrite A in B. injection B as -> ->. split; reflexivity.
Qed.

Lemma mem_In (x : string) (l : list string) : mem x l = true <-> In x l.
Proof.
  unfold mem. rewrite existsb_exists. split.
  - intros (y & Hy & E). apply String.eqb_eq in E. subst. exact Hy.
  - intros H. exists x. split; [exact H | apply String.eqb_refl].
Qed.

(** ** Text without a newline *)

Lemma sub_spaces_no_space (c : ascii) (in_run : bool) (s : string) :
  is_space c = true -> c <> " "%char ->
  has_char c (Regex.sub_spaces in_run s) = false.
Proof.
  intros Hs Hc. revert in_run.
  induction s as [|b s IH]; intros in_run; cbn [Regex.sub_spaces];
    [reflexivity|].
  destruct (is_space b) eqn:B.
  - destruct in_run; [apply IH|].
    cbn [has_char]. rewrite IH, Bool.orb_false_r.
    apply Ascii.eqb_neq. exact Hc.
  - cbn [has_char]. rewrite IH, Bool.orb_false_r.
    apply Ascii.eqb_neq. congruence.
Qed.

Lemma lstrip_has_char (c : ascii) (s : string) :
  has_char c s = false -> has_char c (lstrip s) = false.
Proof.
  induction s as [|b s IH]; cbn [lstrip has_char]; [reflexivity|].
  intros H. apply Bool.orb_false_iff in H as [H1 H2].
  destruct (is_space b); [apply IH; exact H2|].
  cbn [has_char]. rewrite H1, H2. reflexivity.
Qed.

Lemma rstrip_has_char (c : ascii) (s : string) :
  has_char c s = false -> has_char c (rstrip s) = false.
Proof.
  induction s as [|b s IH]; [reflexivity|].
  intros H. cbn [has_char] in H. apply Bool.orb_false_iff in H as [H1 H2].
  change (rstrip (String b s))
    with (if all_space (String b s) then EmptyString
          else String b (rstrip s)).
  destruct (all_space (String b s)); [reflexivity|].
  cbn [has_char]. rewrite H1, (IH H2). reflexivity.
Qed.

Lemma split_on_no_sep (sep : ascii) (s : string) :
  has_char sep s = false -> split_on sep s = [s].
Proof.
  induction s as [|b s IH]; cbn [split_on has_char]; [reflexivity|].
  intros H. apply Bool.orb_false_iff in H as [H1 H2].
  rewrite Ascii.eqb_sym, H1, (IH H2). reflexivity.
Qed.

(** ** The page loop of [extract_text_from_file] *)

Lemma read_pages_limit (i : nat) (pages : list (exc pyval)) (text : string) :
  (i <= 10)%nat ->
  read_pages i pages text = read_pages i (firstn (11 - i) pages) text.
Proof.
  revert i text. induction pages as [|page rest IH]; intros i text Hi.
  - now rewrite firstn_nil.
  - replace (11 - i)%nat with (S (10 - i)) by lia.
    cbn [firstn read_pages].
    destruct page as [page_text|msg]; cbn [bind]; [|reflexivity].
    destruct (10 <=? i)%nat eqn:E; [reflexivity|].
    apply Nat.leb_gt in E.
    replace (10 - i)%nat with (11 - S i)%nat by lia.
    apply IH. lia.
Qed.

(** ** [extract_text_from_file] *)

(** A text is returned for the extensions [pdf] and [txt] only. *)
Lemma extract_body_some pdf_open read_text (file_path ext text : string) :
  extract_body pdf_open read_text file_path ext = Ok (Some text) ->
  ext = "pdf"%string \/ ext = "txt"%string.
Proof.
  unfold extract_body.
  destruct (String.eqb ext "pdf") eqn:P;
    [apply String.eqb_eq in P; auto|].
  destruct (String.eqb ext "docx"); [discriminate|].
  destruct (String.eqb ext "txt") eqn:T;
    [apply String.eqb_eq in T; auto|].
  discriminate.
Qed.

Lemma extract_body_other pdf_open read_text (file_path ext : string) :
  ext <> "pdf"%string -> ext <> "txt"%string ->
  extract_body pdf_open read_text file_path ext = Ok None
  \/ exists msg, extract_body pdf_open read_text file_path ext = Raise msg.
Proof.
  intros P T. unfold extract_body.
  apply String.eqb_neq in P. apply String.eqb_neq in T. rewrite P, T.
  destruct (String.eqb ext "docx"); [right; eexists; reflexivity | now left].
Qed.

(** ** [blooms_mapping.get] *)

Lemma get_default_miss (d : list (string * string)) (key default : string) :
  (forall name, ~ In (key, name) d) -> get_default d key default = default.
Proof.
  induction d as [|[k v] d IH]; intros H; cbn [get_default]; [reflexivity|].
  destruct (String.eqb key k) eqn:E.
  - apply String.eqb_eq in E. subst k. exfalso. apply (H v). now left.
  - apply IH. intros name Hin. apply (H name). now right.
Qed.

Lemma get_default_hit (key name default : string) :
  In (key, name) blooms_mapping ->
  get_default blooms_mapping key default = name.
Proof.
  intros H. unfold blooms_mapping in H. cbn [In] in H.
  repeat (destruct H as [H|H]; [injection H as <- <-; reflexivity|]).
  contradiction.
Qed.

(** ** [check_blooms_level] *)

(** What has happened when the route renders the result page. *)
Lemma render_inv secure_filename upload_path save pdf_open read_text req
    (question selected : string) (analysis : ClassificationResult)
    (filename : string) :
  check_blooms_level secure_filename upload_path save pdf_open read_text req
    = Ok (Render question selected analysis filename) ->
  exists name text,
    file req = Some name
    /\ name <> ""%string
    /\ allowed_file name = Ok true
    /\ filename = secure_filename name
    /\ extract_text_from_file pdf_open read_text (upload_path filename)
       = Ok (PyStr text)
    /\ question = strip (form_get (form_question req))
    /\ question <> ""%string
    /\ strip (form_get (form_blooms_level req)) <> ""%string
    /\ selected = get_default blooms_mapping
                    (strip (form_get (form_blooms_level req)))
                    (strip (form_get (form_blooms_level req)))
    /\ analysis = analyze_question_blooms_level (PyStr text)
                    (PyStr question) selected.
Proof.
  unfold check_blooms_level. intros H.
  destruct (file req) as [name|]; [|discriminate].
  destruct (String.eqb name "") eqn:N; [discriminate|].
  apply String.eqb_neq in N.
  destruct (allowed_file name) as [[|]|msg] eqn:A; cbn [bind] in H;
    try discriminate.
  destruct (save _) as [u|msg]; cbn [bind] in H; [|discriminate].
  destruct (extract_text_from_file _ _ _) as [[|text]|msg] eqn:X;
    cbn [bind truthy negb] in H; try discriminate.
  destruct text as [|c text]; cbn [negb] in H; [discriminate|].
  destruct (String.eqb (strip (form_get (form_question req))) "") eqn:Q;
    [discriminate|].
  destruct (String.eqb (strip (form_get (form_blooms_level req))) "") eqn:L;
    [discriminate|].
  apply String.eqb_neq in Q. apply String.eqb_neq in L.
  injection H as <- <- <- <-.
  exists name, (String c text). repeat split; try assumption; reflexivity.
Qed.

End CodeFacts.

(* ===================================================================== *)
(** * Further properties of the code *)
(* ===================================================================== *)

Module Extras.
Import PyStr PyNum PyMore PyStrFacts PyNumFacts RegexFacts Spec Blooms
  BloomsFacts MoreFacts.
Import Validation FileUtils Routes CodeFacts.

(** X1. No question triggers two of the three special cases: the tests
    "starts with what did/what happened", "starts with how " and
    "starts with why " exclude one another. *)
Theorem X1_special_cases_exclusive (question_text : string) :
  let ql := lower question_text in
  let what := Regex.search "^what (did|happened)" ql in
  let how := startswith "how " ql in
  let why := startswith "why " ql in
  (what && how = false)%bool /\ (what && why = false)%bool
  /\ (how && why = false)%bool.
Proof.
  cbv zeta.
  destruct (Regex.search _ _) eqn:W.
  - apply what_rule_iff, what_rule_only in W as (_ & -> & ->). auto.
  - destruct (startswith "how " _) eqn:H; [|auto].
    apply how_not_what in H as (_ & ->). auto.
Qed.

(** X2. A question whose lowercased text starts with none of
    "what did", "what happened", "how " and "why " leaves the score board
    as it is; in particular a question with leading white space does. *)
Theorem X2_no_special_case (question_text : string) (a b c d e f : Q) :
  let ql := lower question_text in
  startswith "what did" ql = false ->
  startswith "what happened" ql = false ->
  startswith "how " ql = false ->
  startswith "why " ql = false ->
  _handle_special_cases question_text (full a b c d e f)
  = Ok (full a b c d e f).
Proof.
  intros ql W1 W2 H Y. rewrite handle_full.
  unfold adjust, adjust_why, adjust_how, adjust_what. fold ql.
  assert (W : Regex.search "^what (did|happened)" ql = false).
  { destruct (Regex.search _ _) eqn:E; [|reflexivity].
    apply what_rule_iff in E as [E|E]; congruence. }
  rewrite W, H, Y. reflexivity.
Qed.

Lemma X2_no_special_case_witness :
  _handle_special_cases " What did Newton do?" (full 1 2 3 4 5 6)
  = Ok (full 1 2 3 4 5 6).
Proof.
  apply (X2_no_special_case " What did Newton do?" 1 2 3 4 5 6);
    reflexivity.
Defined.

(** X3. For a question that starts with "how ", only the "how" case
    applies and its branches are tried in order: "how to" adds 1.5 to
    Applying; otherwise "how would" or "how could" adds 1.0 to Applying and
    to Creating; otherwise "how does" or "how did" adds 1.0 to
    Understanding and 0.5 to Analyzing; otherwise nothing changes. *)
Theorem X3_how_rule (question_text : string) (a b c d e f : Q) :
  let ql := lower question_text in
  startswith "how " ql = true ->
  _handle_special_cases question_text (full a b c d e f)
  = Ok (if contains "how to" ql then full a b (c + 1.5) d e f
        else if (contains "how would" ql || contains "how could" ql)%bool
        then full a b (c + 1.0) d e (f + 1.0)
        else if (contains "how does" ql || contains "how did" ql)%bool
        then full a (b + 1.0) c (d + 0.5) e f
        else full a b c d e f).
Proof.
  intros ql H. rewrite handle_full.
  unfold adjust, adjust_why, adjust_how, adjust_what. fold ql.
  destruct (how_not_what ql H) as [W Y]. rewrite W, H, Y.
  destruct (contains "how to" ql); [reflexivity|].
  destruct (_ || _)%bool; [reflexivity|].
  destruct (_ || _)%bool; reflexivity.
Qed.

Lemma X3_how_rule_witness :
  _handle_special_cases "How would you explain how to swim?" (full 1 2 3 4 5 6)
  = Ok (full 1 2 (3 + 1.5) 4 5 6).
Proof.
  apply (X3_how_rule "How would you explain how to swim?" 1 2 3 4 5 6).
  reflexivity.
Defined.

(** X4. For a question that starts with "why ", only the "why" case
    applies: 1.0 is added to Understanding and 1.5 to Analyzing, the other
    four scores are unchanged. *)
Theorem X4_why_rule (question_text : string) (a b c d e f : Q) :
  startswith "why " (lower question_text) = true ->
  _handle_special_cases question_text (full a b c d e f)
  = Ok (full a (b + 1.0) c (d + 1.5) e f).
Proof.
  intros Y. rewrite handle_full.
  unfold adjust, adjust_why, adjust_how, adjust_what.
  destruct (why_not_what _ Y) as [W H]. rewrite W, H, Y. reflexivity.
Qed.

Lemma X4_why_rule_witness :
  _handle_special_cases "Why is the sky blue?" (full 1 2 3 4 5 6)
  = Ok (full 1 (2 + 1.0) 3 (4 + 1.5) 5 6).
Proof.
  apply (X4_why_rule "Why is the sky blue?" 1 2 3 4 5 6). reflexivity.
Defined.

(** X5. An empty document is no document: the whole result, explanation
    included, is the one of a call with [None] for the document. *)
Theorem X5_empty_document (question_text : pyval) (selected : string) :
  analyze_question_blooms_level (PyStr "") question_text selected
  = analyze_question_blooms_level PyNone question_text selected.
Proof.
  destruct question_text as [|question]; reflexivity.
Qed.

(** X6. Without a document the letter case of the question does not
    matter: two questions with the same lowercased text get the same
    result, explanation included. *)
Theorem X6_case_insensitive (q1 q2 selected : string) :
  lower q1 = lower q2 ->
  analyze_question_blooms_level PyNone (PyStr q1) selected
  = analyze_question_blooms_level PyNone (PyStr q2) selected.
Proof.
  intros E. unfold analyze_question_blooms_level.
  rewrite !analyze_body_eq. cbv zeta.
  rewrite (final_board_same q1 q2 E).
  destruct (_determine_level_with_confidence _) as [detected conf].
  now rewrite (validate_same q1 q2 E), (explanation_same q1 q2 E).
Qed.

Lemma X6_case_insensitive_witness :
  analyze_question_blooms_level PyNone
    (PyStr "WHAT IS the Capital of France?") "Remembering"
  = analyze_question_blooms_level PyNone
      (PyStr "what is the capital of france?") "Remembering".
Proof.
  apply (X6_case_insensitive "WHAT IS the Capital of France?"
           "what is the capital of france?" "Remembering").
  reflexivity.
Defined.

(** X7. The complexity estimate of a question always lies between 0.05
    and 0.9. *)
Theorem X7_total_complexity_range (question_text : string) :
  0.05 <= total_complexity question_text <= 0.9.
Proof.
  unfold total_complexity. rewrite div_2.
  destruct (structural_complexity_cases question_text) as [S _].
  destruct (sentence_complexity_cases (List.length (split question_text)))
    as (N & _).
  cbv zeta in S, N. lra.
Qed.

(** X8. The complexity signal never penalises Remembering: its
    contribution to that level is 0.8 or 0.0, and it is 0.8 for every
    question of at least three words. *)
Theorem X8_remembering_complexity (question_text : string) :
  let c :=
    _analyze_question_complexity question_text Remembering
      (complexity_threshold (profile Remembering)) in
  (c = 0.8 \/ c = 0.0)
  /\ ((3 <= List.length (split question_text))%nat -> c = 0.8).
Proof.
  cbv zeta. unfold _analyze_question_complexity.
  change (complexity_threshold (profile Remembering)) with 0.2.
  assert (L : 0 <= total_complexity question_text).
  { unfold total_complexity. rewrite div_2.
    destruct (structural_complexity_cases question_text) as [S _].
    destruct (sentence_complexity_cases (List.length (split question_text)))
      as (N & _).
    cbv zeta in S, N. lra. }
  destruct (Qle_bool 0.2 (total_complexity question_text)) eqn:B.
  - auto.
  - assert (K : Qlt_bool (total_complexity question_text) (0.2 - 0.2) = false)
      by (apply Qlt_bool_false; lra).
    rewrite K. split; [auto|].
    intros H3. apply total_complexity_three_words, Qle_bool_iff in H3.
    congruence.
Qed.

Lemma X8_remembering_complexity_witness :
  _analyze_question_complexity "Name three planets" Remembering
    (complexity_threshold (profile Remembering)) = 0.8.
Proof.
  apply (proj2 (X8_remembering_complexity "Name three planets")).
  vm_compute. lia.
Defined.

(** X9. The complexity signal rewards Creating (+0.8) exactly when the
    question has at least ten words and contains a subordinating
    conjunction, a coordinating word and a modal. *)
Theorem X9_creating_complexity (question_text : string) :
  _analyze_question_complexity question_text Creating
    (complexity_threshold (profile Creating)) = 0.8
  <-> (10 <= List.length (split question_text))%nat
      /\ has_subordination question_text = true
      /\ has_coordination question_text = true
      /\ has_conditionals question_text = true.
Proof.
  unfold _analyze_question_complexity.
  change (complexity_threshold (profile Creating)) with 0.9.
  destruct (structural_complexity_cases question_text) as [S S8].
  destruct (sentence_complexity_cases (List.length (split question_text)))
    as (N & N10 & _).
  cbv zeta in S, S8, N, N10.
  assert (T : 0.9 <= total_complexity question_text
              <-> 1 <= py_min (of_nat (List.length (split question_text)) / 10) 1.0
                  /\ 0.8 <= structural_complexity question_text).
  { unfold total_complexity. rewrite div_2. split; [intros H; split|intros [? ?]]; lra. }
  rewrite N10, S8 in T.
  destruct (Qle_bool 0.9 (total_complexity question_text)) eqn:B.
  - apply Qle_bool_iff in B. split; [intros _; now apply T | reflexivity].
  - split.
    + intros H. exfalso.
      destruct (Qlt_bool _ _); [|]; vm_compute in H; discriminate.
    + intros H. apply T, Qle_bool_iff in H. congruence.
Qed.

(** X10. A question of at least three words always scores at least 0.8
    for Remembering, whatever the document: the scores of such a question
    are never all 0, so the zero-sum fallback of the decision is not
    used for it. *)
Theorem X10_three_words_score
    (document_text : pyval) (question selected : string) :
  (3 <= List.length (split question))%nat ->
  exists s,
    score_of Remembering
      (analyze_question_blooms_level document_text (PyStr question) selected)
    = Some s
    /\ 0.8 <= s.
Proof.
  intros H3. rewrite score_of_result. eexists. split; [reflexivity|].
  pose proof (raw_score_remembering_ge document_text question H3) as R.
  pose proof (adjust_remembering_ge question
                (raw_score document_text question Remembering)) as A.
  pose proof (round2_ge 80 (final_score document_text question Remembering)) as G.
  rewrite !div_100 in G. change (inject_Z 80) with 80 in G.
  unfold final_score in *. lra.
Qed.

Lemma X10_three_words_score_witness :
  exists s,
    score_of Remembering
      (analyze_question_blooms_level (PyStr "Some text.")
         (PyStr "Design a bridge") "Creating")
    = Some s
    /\ 0.8 <= s.
Proof.
  apply (X10_three_words_score (PyStr "Some text.") "Design a bridge" "Creating").
  vm_compute. lia.
Defined.

(** X11. On a board of six scores none of which is negative, the
    decision has a confidence between 1/6 and 0.95. *)
Theorem X11_decision_confidence_range (a b c d e f : Q) :
  0 <= a -> 0 <= b -> 0 <= c -> 0 <= d -> 0 <= e -> 0 <= f ->
  (1 # 6) <= snd (_determine_level_with_confidence (full a b c d e f)) <= 0.95.
Proof.
  intros Ha Hb Hc Hd He Hf.
  pose proof (determine_confidence_range a b c d e f Ha Hb Hc Hd He Hf).
  tauto.
Qed.

Lemma X11_decision_confidence_range_witness :
  (1 # 6) <= snd (_determine_level_with_confidence (full 1 1 1 1 1 1)) <= 0.95.
Proof.
  apply (X11_decision_confidence_range 1 1 1 1 1 1); lra.
Defined.

(** X12. The lower bound 0.1 of the validator is never what a call
    returns: whenever the call does not fail, the confidence of the
    result is at least 0.12. *)
Theorem X12_confidence_floor
    (document_text question_text : pyval) (selected : string) :
  let r := analyze_question_blooms_level document_text question_text selected in
  actual_level r <> "Error" -> 0.12 <= confidence r.
Proof.
  cbv zeta. destruct question_text as [|question].
  - unfold analyze_question_blooms_level. rewrite analyze_body_none.
    cbn [actual_level]. congruence.
  - intros _.
    destruct (analyze_str_facts document_text question selected)
      as (_ & [L _] & _).
    exact L.
Qed.

Lemma X12_confidence_floor_witness :
  0.12 <= confidence
            (analyze_question_blooms_level PyNone (PyStr "") "Remembering").
Proof.
  apply (X12_confidence_floor PyNone (PyStr "") "Remembering").
  vm_compute. discriminate.
Defined.

(** X13. The keywords of the registry are matched as whole words: the
    keyword test of the scoring loop succeeds exactly when the keyword
    occurs in the text with no word character right before it and none
    right after it (a keyword inside a longer word does not count). *)
Theorem X13_keyword_whole_word (level : CognitiveLevel) (kw s : string) :
  In kw (keywords (profile level)) ->
  (Regex.search_word kw s = true
   <-> exists pre post,
         s = (pre ++ kw ++ post)%string
         /\ Regex.word_opt (last_char pre) = false
         /\ Regex.word_opt (Regex.head post) = false).
Proof.
  intros Hin. apply profile_keyword_in_registry in Hin.
  pose proof registry_keywords_are_words as W.
  rewrite forallb_forall in W. specialize (W kw Hin).
  apply andb_true_iff in W as [W1 W2].
  unfold Regex.search_word, last_char.
  apply (search_word_go_spec kw W1 W2 s None).
Qed.

Lemma X13_keyword_whole_word_witness :
  Regex.search_word "effect" "what effect did it have" = true.
Proof.
  apply (X13_keyword_whole_word Analyzing "effect" "what effect did it have");
    [cbn; tauto|].
  exists "what ", " did it have". repeat split.
Defined.

(** X14. [allowed_file] never raises, and it accepts a filename exactly
    when the text after the last dot of the name, in lower case, is one
    of the allowed extensions. *)
Theorem X14_allowed_file (filename : string) :
  (exists b, allowed_file filename = Ok b)
  /\ (allowed_file filename = Ok true
      <-> exists base ext,
            filename = (base ++ "." ++ ext)%string
            /\ has_char "." ext = false
            /\ In (lower ext) Config.ALLOWED_EXTENSIONS).
Proof.
  unfold allowed_file.
  destruct (has_char "." filename) eqn:D.
  - destruct (extension_spec filename D) as (base & ext & -> & He & ->).
    cbn [bind]. split; [eexists; reflexivity|]. split.
    + intros H.
      assert (M : mem (lower ext) Config.ALLOWED_EXTENSIONS = true)
        by congruence.
      apply mem_In in M. exists base, ext. repeat split; assumption.
    + intros (base' & ext' & E & He' & Hin).
      destruct (extension_unique _ _ _ _ E He He') as [_ <-].
      apply mem_In in Hin. rewrite Hin. reflexivity.
  - split; [eexists; reflexivity|]. split; [discriminate|].
    intros (base & ext & -> & He & _).
    destruct (extension_of base ext He) as [_ D'].
    exfalso. exact (Bool.diff_true_false (eq_trans (eq_sym D') D)).
Qed.

(** X15. [validate_file_and_params] never raises, and it reports no
    error exactly when there is an upload whose name ends in a dot and
    an allowed extension (in any case of the letters) and the number of
    questions reads as an integer between 1 and the maximum. *)
Theorem X15_validation_accepts
    (max_str_digits : nat) (uploaded_file : option string)
    (num_questions_str : string) (max_questions : Z)
    (allowed_extensions : list string) :
  (exists r,
     validate_file_and_params max_str_digits uploaded_file num_questions_str
       max_questions allowed_extensions = Ok r)
  /\ (validate_file_and_params max_str_digits uploaded_file num_questions_str
        max_questions allowed_extensions = Ok None
      <-> exists base ext n,
            uploaded_file = Some (base ++ "." ++ ext)%string
            /\ has_char "." ext = false
            /\ In (lower ext) allowed_extensions
            /\ py_int max_str_digits num_questions_str = Some n
            /\ (1 <= n <= max_questions)%Z).
Proof.
  unfold validate_file_and_params, validate_num_questions.
  destruct uploaded_file as [filename|].
  2:{ split; [eexists; reflexivity|]. split; [discriminate|].
      intros (? & ? & ? & ? & _). discriminate. }
  destruct (String.eqb filename "") eqn:N.
  { apply String.eqb_eq in N. subst filename.
    split; [eexists; reflexivity|]. split; [discriminate|].
    intros (base & ext & ? & E & _). injection E as E.
    destruct base; discriminate. }
  destruct (has_char "." filename) eqn:D; cbn [negb].
  2:{ split; [eexists; reflexivity|]. split; [discriminate|].
      intros (base & ext & ? & E & He & _). injection E as ->.
      destruct (extension_of base ext He) as [_ D'].
      exfalso. exact (Bool.diff_true_false (eq_trans (eq_sym D') D)). }
  destruct (extension_spec filename D) as (base & ext & -> & He & ->).
  cbn [bind].
  destruct (mem (lower ext) allowed_extensions) eqn:M; cbn [negb].
  2:{ split; [eexists; reflexivity|]. split; [discriminate|].
      intros (base' & ext' & ? & E & He' & Hin & _). injection E as E.
      destruct (extension_unique _ _ _ _ E He He') as [_ <-].
      apply mem_In in Hin. rewrite Hin in M. discriminate. }
  apply mem_In in M.
  destruct (py_int max_str_digits num_questions_str) as [n|] eqn:I.
  2:{ split; [eexists; reflexivity|]. split; [discriminate|].
      intros (? & ? & ? & _ & _ & _ & ? & _). discriminate. }
  destruct ((n <? 1)%Z || (max_questions <? n)%Z)%bool eqn:R.
  - split; [eexists; reflexivity|]. split; [discriminate|].
    intros (? & ? & n' & _ & _ & _ & E & Hn). injection E as <-.
    apply Bool.orb_true_iff in R as [R|R]; apply Z.ltb_lt in R; lia.
  - split; [eexists; reflexivity|]. split; [|reflexivity].
    intros _. exists base, ext, n.
    apply Bool.orb_false_iff in R as [R1 R2].
    apply Z.ltb_ge in R1, R2. repeat split; try assumption; reflexivity.
Qed.

(** X16. The first steps of the question generator agree: when
    [validate_file_and_params] has passed with the configured limits,
    the second call of [validate_num_questions] gives a number between
    1 and 20 and no error, and [save_uploaded_file] does not answer
    "Invalid file format": it saves the upload under its secured name
    and returns that path and name, or raises what saving raises. *)
Theorem X16_validated_upload_is_saved
    (max_str_digits : nat) (uploaded_file : option string)
    (num_questions_str : string)
    (secure_filename upload_path : string -> string)
    (save : string -> exc unit) :
  validate_file_and_params max_str_digits uploaded_file num_questions_str
    Config.MAX_QUESTIONS Config.ALLOWED_EXTENSIONS = Ok None ->
  exists name n,
    uploaded_file = Some name
    /\ validate_num_questions max_str_digits num_questions_str 1
         Config.MAX_QUESTIONS = (Some n, None)
    /\ (1 <= n <= 20)%Z
    /\ save_uploaded_file secure_filename upload_path save uploaded_file
       = (_ <- save (upload_path (secure_filename name)) ;;
          Ok (Some (upload_path (secure_filename name)),
              Some (secure_filename name), None)).
Proof.
  unfold validate_file_and_params.
  destruct uploaded_file as [filename|]; [|discriminate].
  destruct (String.eqb filename "") eqn:N; [discriminate|].
  destruct (has_char "." filename) eqn:D; cbn [negb]; [|discriminate].
  destruct (extension_spec filename D) as (base & ext & E & He & X).
  rewrite X. cbn [bind].
  destruct (mem (lower ext) Config.ALLOWED_EXTENSIONS) eqn:M; cbn [negb];
    [|discriminate].
  destruct (validate_num_questions _ _ _ _) as [number error] eqn:V.
  destruct error as [e|]; [discriminate|]. intros _.
  unfold validate_num_questions in V.
  destruct (py_int max_str_digits num_questions_str) as [n|];
    [|discriminate].
  destruct ((n <? 1)%Z || (Config.MAX_QUESTIONS <? n)%Z)%bool eqn:R;
    [discriminate|].
  apply Bool.orb_false_iff in R as [R1 R2].
  apply Z.ltb_ge in R1, R2. unfold Config.MAX_QUESTIONS in R2.
  exists filename, n. split; [reflexivity|].
  split; [symmetry; exact V|].
  split; [lia|].
  unfold save_uploaded_file, allowed_file. rewrite N, D, X.
  cbn [negb bind]. rewrite M. reflexivity.
Qed.

Lemma X16_validated_upload_is_saved_witness :
  exists name n,
    Some "Unit 3.PDF"%string = Some name
    /\ validate_num_questions 4300 " 1_0 " 1 Config.MAX_QUESTIONS
       = (Some n, None)
    /\ (1 <= n <= 20)%Z
    /\ save_uploaded_file (fun _ => "Unit_3.PDF"%string)
         (String.append "uploads/") (fun _ => Ok tt) (Some "Unit 3.PDF"%string)
       = (_ <- Ok tt ;;
          Ok (Some ("uploads/" ++ "Unit_3.PDF")%string,
              Some "Unit_3.PDF"%string, None)).
Proof.
  apply (X16_validated_upload_is_saved 4300 (Some "Unit 3.PDF"%string)
           " 1_0 " (fun _ => "Unit_3.PDF"%string) (String.append "uploads/")
           (fun _ => Ok tt)).
  vm_compute. reflexivity.
Defined.

(** X17. When [extract_text_from_file] returns a text, the text has a
    character that is not white space, and the path ends in a dot and
    the extension pdf or txt, in any case of the letters. *)
Theorem X17_extracted_text
    (pdf_open : string -> exc (list (exc pyval)))
    (read_text : string -> exc string) (file_path text : string) :
  extract_text_from_file pdf_open read_text file_path = Ok (PyStr text) ->
  strip text <> ""%string
  /\ exists base ext,
       file_path = (base ++ "." ++ ext)%string
       /\ has_char "." ext = false
       /\ (lower ext = "pdf"%string \/ lower ext = "txt"%string).
Proof.
  unfold extract_text_from_file. intros H.
  destruct (has_char "." file_path) eqn:D.
  - destruct (extension_spec file_path D) as (base & ext & -> & He & E).
    rewrite E in H. cbn [bind] in H.
    destruct (extract_body _ _ _ _) as [[t|]|msg] eqn:B;
      try discriminate.
    destruct (String.eqb (strip t) "") eqn:S; cbn [negb] in H;
      [discriminate|].
    injection H as ->. apply String.eqb_neq in S.
    split; [exact S|].
    exists base, ext. repeat split; try assumption.
    exact (extract_body_some _ _ _ _ _ B).
  - rewrite (extension_none _ D) in H. discriminate.
Qed.

Lemma X17_extracted_text_witness :
  strip " Cells divide. " <> ""%string
  /\ exists base ext,
       "uploads/notes.TXT"%string = (base ++ "." ++ ext)%string
       /\ has_char "." ext = false
       /\ (lower ext = "pdf"%string \/ lower ext = "txt"%string).
Proof.
  apply (X17_extracted_text (fun _ => Raise "no such file")
           (fun _ => Ok " Cells divide. "%string) "uploads/notes.TXT").
  vm_compute. reflexivity.
Defined.

(** X18. For a path whose extension is neither pdf nor txt, in any case
    of the letters, [extract_text_from_file] returns [None] whatever the
    file holds; this covers doc, docx, ppt and pptx, which
    [allowed_file] accepts. *)
Theorem X18_unsupported_extension
    (pdf_open : string -> exc (list (exc pyval)))
    (read_text : string -> exc string) (base ext : string) :
  has_char "." ext = false ->
  lower ext <> "pdf"%string -> lower ext <> "txt"%string ->
  extract_text_from_file pdf_open read_text (base ++ "." ++ ext) = Ok PyNone.
Proof.
  intros He P T. unfold extract_text_from_file.
  destruct (extension_of base ext He) as [-> _]. cbn [bind].
  destruct (extract_body_other pdf_open read_text (base ++ "." ++ ext)
              (lower ext) P T) as [->|[msg ->]]; reflexivity.
Qed.

Lemma X18_unsupported_extension_witness :
  allowed_file "report.docx" = Ok true
  /\ extract_text_from_file (fun _ => Ok [Ok (PyStr "page")])
       (fun _ => Ok "text"%string) ("report" ++ "." ++ "docx") = Ok PyNone.
Proof.
  split; [reflexivity|].
  apply (X18_unsupported_extension (fun _ => Ok [Ok (PyStr "page")])
           (fun _ => Ok "text"%string) "report" "docx");
    [reflexivity | discriminate | discriminate].
Defined.

(** X19. Of a PDF, [extract_text_from_file] reads the first eleven
    pages only: the result is the one for the document cut after its
    eleventh page, so neither the text of a later page nor an exception
    of its [extract_text] has any effect. *)
Theorem X19_first_eleven_pages
    (pdf_open : string -> exc (list (exc pyval)))
    (read_text : string -> exc string) (file_path : string) :
  extract_text_from_file pdf_open read_text file_path
  = extract_text_from_file
      (fun path => pages <- pdf_open path ;; Ok (firstn 11 pages))
      read_text file_path.
Proof.
  unfold extract_text_from_file.
  destruct (index (rsplit1 "." file_path) 1) as [part|msg]; cbn [bind];
    [|reflexivity].
  unfold extract_body.
  destruct (String.eqb (lower part) "pdf"); [|reflexivity].
  destruct (pdf_open file_path) as [pages|msg]; cbn [bind]; [|reflexivity].
  rewrite (read_pages_limit 0 pages "") by lia. reflexivity.
Qed.

(** X20. The extension of the saved path is read before the [try] of
    [extract_text_from_file]: when the upload's name is accepted but the
    path built from its secured name has no dot, [check_blooms_level]
    does not answer, it raises [IndexError]. *)
Theorem X20_path_without_dot
    (secure_filename upload_path : string -> string)
    (save : string -> exc unit)
    (pdf_open : string -> exc (list (exc pyval)))
    (read_text : string -> exc string) (req : request) (name : string) :
  file req = Some name ->
  allowed_file name = Ok true ->
  save (upload_path (secure_filename name)) = Ok tt ->
  has_char "." (upload_path (secure_filename name)) = false ->
  check_blooms_level secure_filename upload_path save pdf_open read_text req
  = Raise "list index out of range".
Proof.
  intros F A S D. unfold check_blooms_level. rewrite F.
  destruct (String.eqb name "") eqn:N.
  { apply String.eqb_eq in N. subst name. discriminate. }
  rewrite A. cbn [bind]. rewrite S. cbn [bind].
  unfold extract_text_from_file. rewrite (extension_none _ D). reflexivity.
Qed.

Lemma X20_path_without_dot_witness :
  check_blooms_level (fun _ => "pdf"%string) (String.append "uploads/")
    (fun _ => Ok tt) (fun _ => Ok []) (fun _ => Ok ""%string)
    {| file := Some ".pdf"%string; form_question := Some "What is a cell?"%string;
       form_blooms_level := Some "remember"%string |}
  = Raise "list index out of range".
Proof.
  apply (X20_path_without_dot (fun _ => "pdf"%string)
           (String.append "uploads/") (fun _ => Ok tt) (fun _ => Ok [])
           (fun _ => Ok ""%string)
           {| file := Some ".pdf"%string;
              form_question := Some "What is a cell?"%string;
              form_blooms_level := Some "remember"%string |} ".pdf");
    reflexivity.
Defined.

(** X21. In [extract_text_from_pdf] the filter on the length of lines
    is a filter on the whole document: the text has no newline left
    when it is split, so the result is the whole cleaned text when that
    has more than 50 characters, and the empty text, without an error,
    when it has 50 or fewer. *)
Theorem X21_pdf_length_filter
    (fitz_open : string -> fitz_result) (pdf_path : string)
    (texts : list string) :
  fitz_open pdf_path = Pages texts ->
  let cleaned :=
    strip (Regex.sub_spaces false (fold_left String.append texts "")) in
  extract_text_from_pdf fitz_open pdf_path
  = (Some (if (50 <? String.length cleaned)%nat then cleaned else ""), None).
Proof.
  intros F. cbv zeta. unfold extract_text_from_pdf. rewrite F.
  rewrite split_on_no_sep.
  - cbn [filter]. destruct (50 <? _)%nat; reflexivity.
  - apply rstrip_has_char, lstrip_has_char, sub_spaces_no_space;
      [reflexivity | discriminate].
Qed.

Lemma X21_pdf_length_filter_witness :
  extract_text_from_pdf
    (fun _ => Pages ["Chapter 1"; String Regex.newline "Cells divide."])
    "uploads/unit.pdf"
  = (Some ""%string, None).
Proof.
  apply (X21_pdf_length_filter
           (fun _ => Pages ["Chapter 1"; String Regex.newline "Cells divide."])
           "uploads/unit.pdf"
           ["Chapter 1"; String Regex.newline "Cells divide."]).
  reflexivity.
Defined.

(** X22. Whenever [check_blooms_level] renders the result page, the
    question shown is not empty and the analysis shown is not the error
    record: its level is one of the six levels, its confidence lies
    between 0.12 and 0.95, its scores are those of the six levels in
    their order, and it reports a match exactly when its level is the
    selected level shown. *)
Theorem X22_rendered_analysis
    (secure_filename upload_path : string -> string)
    (save : string -> exc unit)
    (pdf_open : string -> exc (list (exc pyval)))
    (read_text : string -> exc string) (req : request)
    (question selected : string) (analysis : ClassificationResult)
    (filename : string) :
  check_blooms_level secure_filename upload_path save pdf_open read_text req
    = Ok (Render question selected analysis filename) ->
  question <> ""%string
  /\ (exists l, actual_level analysis = Level.name l)
  /\ 0.12 <= confidence analysis <= 0.95
  /\ map fst (scores analysis) = Level.all
  /\ (matches_level analysis = true <-> actual_level analysis = selected).
Proof.
  intros H.
  destruct (render_inv _ _ _ _ _ _ _ _ _ _ H)
    as (name & text & _ & _ & _ & _ & _ & _ & Q & _ & _ & ->).
  destruct (analyze_str_facts (PyStr text) question selected)
    as (L & C & S & M).
  split; [exact Q|]. split; [exact L|]. split; [exact C|].
  split; [exact S|]. rewrite M. apply String.eqb_eq.
Qed.

Lemma X22_rendered_analysis_witness :
  let analysis :=
    analyze_question_blooms_level (PyStr "Cells divide by mitosis.")
      (PyStr "What is mitosis?") "Remembering" in
  "What is mitosis?"%string <> ""%string
  /\ (exists l, actual_level analysis = Level.name l)
  /\ 0.12 <= confidence analysis <= 0.95
  /\ map fst (scores analysis) = Level.all
  /\ (matches_level analysis = true
      <-> actual_level analysis = "Remembering"%string).
Proof.
  cbv zeta.
  apply (X22_rendered_analysis (fun n => n) (String.append "uploads/")
           (fun _ => Ok tt) (fun _ => Ok [])
           (fun _ => Ok "Cells divide by mitosis."%string)
           {| file := Some "notes.txt"%string;
              form_question := Some " What is mitosis? "%string;
              form_blooms_level := Some "remember"%string |}
           "What is mitosis?" "Remembering"
           (analyze_question_blooms_level (PyStr "Cells divide by mitosis.")
              (PyStr "What is mitosis?") "Remembering")
           "notes.txt").
  vm_compute. reflexivity.
Defined.

(** X23. The level the route compares with: a code of the form
    ([remember], [understand], ...) is replaced by the name of its
    level; any other text is compared as it is, so that a level that is
    neither a code nor the exact name of a level is always reported as
    not matching. *)
Theorem X23_selected_level
    (secure_filename upload_path : string -> string)
    (save : string -> exc unit)
    (pdf_open : string -> exc (list (exc pyval)))
    (read_text : string -> exc string) (req : request)
    (question selected : string) (analysis : ClassificationResult)
    (filename : string) :
  check_blooms_level secure_filename upload_path save pdf_open read_text req
    = Ok (Render question selected analysis filename) ->
  let code := strip (form_get (form_blooms_level req)) in
  (forall name, In (code, name) blooms_mapping -> selected = name)
  /\ ((forall name, ~ In (code, name) blooms_mapping) ->
      selected = code
      /\ ((forall l, code <> Level.name l) -> matches_level analysis = false)).
Proof.
  intros H. cbv zeta.
  destruct (render_inv _ _ _ _ _ _ _ _ _ _ H)
    as (name & text & _ & _ & _ & _ & _ & _ & _ & _ & S & A).
  split.
  - intros level Hin. rewrite S. apply get_default_hit. exact Hin.
  - intros Hmiss. rewrite (get_default_miss _ _ _ Hmiss) in S.
    split; [exact S|]. intros Hl.
    destruct (analyze_str_facts (PyStr text) question selected)
      as ([l L] & _ & _ & M).
    rewrite <- A in L, M. rewrite M, L. apply String.eqb_neq.
    rewrite S. intros E. exact (Hl l (eq_sym E)).
Qed.

Lemma X23_selected_level_witness :
  matches_level
    (analyze_question_blooms_level (PyStr "Cells divide by mitosis.")
       (PyStr "What is mitosis?") "Remember") = false.
Proof.
  refine (proj2 (proj2 (X23_selected_level (fun n => n)
           (String.append "uploads/") (fun _ => Ok tt) (fun _ => Ok [])
           (fun _ => Ok "Cells divide by mitosis."%string)
           {| file := Some "notes.txt"%string;
              form_question := Some " What is mitosis? "%string;
              form_blooms_level := Some "Remember"%string |}
           "What is mitosis?" "Remember"
           (analyze_question_blooms_level (PyStr "Cells divide by mitosis.")
              (PyStr "What is mitosis?") "Remember")
           "notes.txt" _) _) _).
  - vm_compute. reflexivity.
  - intros name H. vm_compute in H.
    repeat (destruct H as [H|H]; [discriminate H|]). exact H.
  - intros l. destruct l; discriminate.
Defined.

(** X24. An upload that [allowed_file] accepts but whose saved path has
    an extension other than pdf and txt (doc, docx, ppt, pptx) is never
    analysed: once it is saved, [check_blooms_level] answers with the
    message that no text could be extracted, whatever the file holds. *)
Theorem X24_accepted_but_unreadable
    (secure_filename upload_path : string -> string)
    (save : string -> exc unit)
    (pdf_open : string -> exc (list (exc pyval)))
    (read_text : string -> exc string) (req : request)
    (name base ext : string) :
  file req = Some name ->
  allowed_file name = Ok true ->
  save (upload_path (secure_filename name)) = Ok tt ->
  upload_path (secure_filename name) = (base ++ "." ++ ext)%string ->
  has_char "." ext = false ->
  lower ext <> "pdf"%string -> lower ext <> "txt"%string ->
  check_blooms_level secure_filename upload_path save pdf_open read_text req
  = Ok (Redirect "Could not extract text from the uploaded file").
Proof.
  intros F A S E He P T. unfold check_blooms_level. rewrite F.
  destruct (String.eqb name "") eqn:N.
  { apply String.eqb_eq in N. subst name. discriminate. }
  rewrite A. cbn [bind]. rewrite S. cbn [bind]. rewrite E.
  unfold extract_text_from_file.
  destruct (extension_of base ext He) as [-> _]. cbn [bind].
  destruct (extract_body_other pdf_open read_text (base ++ "." ++ ext)
              (lower ext) P T) as [->|[msg ->]]; reflexivity.
Qed.

Lemma X24_accepted_but_unreadable_witness :
  check_blooms_level (fun n => n) (String.append "uploads/")
    (fun _ => Ok tt) (fun _ => Ok [Ok (PyStr "page")])
    (fun _ => Ok "text"%string)
    {| file := Some "report.docx"%string;
       form_question := Some "What is a cell?"%string;
       form_blooms_level := Some "remember"%string |}
  = Ok (Redirect "Could not extract text from the uploaded file").
Proof.
  apply (X24_accepted_but_unreadable (fun n => n) (String.append "uploads/")
           (fun _ => Ok tt) (fun _ => Ok [Ok (PyStr "page")])
           (fun _ => Ok "text"%string)
           {| file := Some "report.docx"%string;
              form_question := Some "What is a cell?"%string;
              form_blooms_level := Some "remember"%string |}
           "report.docx" "uploads/report" "docx");
    first [reflexivity | discriminate].
Defined.

End Extras.
